(** * The scikit-learn compatibility notebook of PySINDy

    A verification development for
    [examples/4_scikit_learn_compatibility.ipynb].

    The notebook is glue code: it builds two time grids with [np.arange],
    integrates the Lorenz system with [scipy.integrate.solve_ivp], builds
    [SINDy] models, hands them to scikit-learn's [GridSearchCV] and prints
    what was found.  The development embeds

    - the numbers as the code has them: binary64 floats ([PrimFloat]), so
      that [np.arange(0, 10, .002)] is the array NumPy builds, bit for bit;
    - the Python values that flow between the calls ([pyval]);
    - the notebook cells as programs of a small monad whose only effect is
      a call into a library ([prog]); a run against an arbitrary library
      ([handler]) records every call and its response in a trace;
    - the class [SINDyCV] defined in the notebook, method by method. *)

From Stdlib Require Import Floats ZArith Lia.
From stdpp Require Import base option list strings.

Set Warnings "-inexact-float,-abstract-large-number,-register-all".

(** Close [a = b] by evaluating both sides. *)
Ltac vm_refl :=
  lazymatch goal with
  | |- ?a = ?b => vm_cast_no_check (@eq_refl _ b)
  end.

(* ===================================================================== *)
(** * Binary64 numbers and [np.arange] *)
(* ===================================================================== *)

Module Numeric.

(** [dt = .002]: the literal denotes the nearest binary64 number. *)
Definition dt : float := 0.002%float.

(** The C loop variable [npy_intp i] converted to [double]. *)
Definition of_index (i : Z) : float := PrimFloat.of_uint63 (Uint63.of_Z i).

(** [ceil] of a binary64 number as an integer; [None] for an infinity or
    a NaN, where NumPy raises. *)
Definition ceil_float (x : float) : option Z :=
  match Prim2SF x with
  | S754_zero _ => Some 0%Z
  | S754_finite s m e =>
      let mag := Z.pos m in
      Some (if s
            then (- (if (0 <=? e)%Z then mag * 2 ^ e else mag / 2 ^ (- e)))%Z
            else (if (0 <=? e)%Z then mag * 2 ^ e
                  else - ((- mag) / 2 ^ (- e)))%Z)
  | S754_infinity _ | S754_nan => None
  end.

(** The sign of a zero. *)
Definition negative_zero (x : float) : bool :=
  match Prim2SF x with
  | S754_zero s => s
  | _ => false
  end.

(** The length NumPy allots to [arange(start, stop, step)], as its
    [_calc_length] computes it.  The quotient [(stop - start) / step] is a
    division of Python, which raises a [ZeroDivisionError] for a zero
    step.  The length is the ceiling of the quotient: an error when the
    quotient is a NaN or an infinity, when the ceiling is below the least
    [npy_intp], [-2^63], or when the array, at 8 bytes an entry, would not
    fit the address space.  A quotient that is zero although [stop]
    differs from [start] (an underflow, or an infinite step) gives the
    length 1, and 0 when it is a negative zero.  There is no element when
    the length is not positive.  [None] stands for any of these errors;
    an array that fits the address space is taken to fit the memory. *)
Definition arange_len (start stop step : float) : option Z :=
  let delta := PrimFloat.sub stop start in
  if PrimFloat.eqb step 0%float then None
  else
    let quotient := PrimFloat.div delta step in
    n ← ceil_float quotient;
    if ((n <? - 2 ^ 63) || (2 ^ 63 - 1 <? 8 * n))%Z then None
    else if PrimFloat.eqb quotient 0%float
            && negb (PrimFloat.eqb delta 0%float)
    then Some (if negative_zero quotient then 0 else 1)%Z
    else Some n.

(** The buffer NumPy fills: [buffer[0] = start], [buffer[1] = next] and,
    for [i >= 2], [buffer[i] = start + i * delta] with
    [delta = buffer[1] - buffer[0]]. *)
Definition arange_item (start next : float) (i : Z) : float :=
  if (i =? 0)%Z then start
  else if (i =? 1)%Z then next
  else PrimFloat.add start
         (PrimFloat.mul (of_index i) (PrimFloat.sub next start)).

Fixpoint arange_from (start next : float) (i : Z) (n : nat) : list float :=
  match n with
  | 0 => []
  | S n' => arange_item start next i :: arange_from start next (Z.succ i) n'
  end.

Definition arange_fill (start next : float) (len : Z) : list float :=
  arange_from start next 0 (Z.to_nat len).

(** [np.arange(start, stop, step)] on floats; [next = start + step]. *)
Definition np_arange (start stop step : float) : option (list float) :=
  len ← arange_len start stop step;
  Some (arange_fill start (PrimFloat.add start step) len).

(** [t_train = np.arange(0, 10, dt)] and [t_test = np.arange(0, 15, dt)]:
    the arrays themselves, proved below to be what [np_arange] returns. *)
Definition t_train : list float :=
  arange_fill 0%float (PrimFloat.add 0%float dt) 5000.

Definition t_test : list float :=
  arange_fill 0%float (PrimFloat.add 0%float dt) 7500.

(** Python's [a[i]] on a one-dimensional array, negative indices counting
    from the end; [None] is an [IndexError]. *)
Definition getitem {A} (a : list A) (i : Z) : option A :=
  if (0 <=? i)%Z then a !! Z.to_nat i
  else if (- Z.of_nat (length a) <=? i)%Z
       then a !! Z.to_nat (Z.of_nat (length a) + i)
       else None.

(** ** The data-model invariant of a time vector *)

(** [t[i+1] - t[i] == step] at every index, with the subtraction and the
    comparison of binary64. *)
Definition uniformly_spaced (step : float) (t : list float) : Prop :=
  ∀ i a b, t !! i = Some a → t !! S i = Some b →
           PrimFloat.eqb (PrimFloat.sub b a) step = true.

Definition strictly_increasing (t : list float) : Prop :=
  ∀ i a b, t !! i = Some a → t !! S i = Some b → PrimFloat.ltb a b = true.

(** Spacing up to a tolerance: [|(t[i+1] - t[i]) - step| <= tol]. *)
Definition spaced_within (tol step : float) (t : list float) : Prop :=
  ∀ i a b, t !! i = Some a → t !! S i = Some b →
           PrimFloat.leb
             (PrimFloat.abs (PrimFloat.sub (PrimFloat.sub b a) step)) tol
           = true.

(** Every entry is the rounded product [i * step]. *)
Definition rounded_grid (step : float) (t : list float) : Prop :=
  ∀ i a, t !! i = Some a →
         PrimFloat.eqb a (PrimFloat.mul (of_index (Z.of_nat i)) step) = true.

(** A checker for properties of adjacent entries. *)
Fixpoint adjacent (ok : float → float → bool) (t : list float) : bool :=
  match t with
  | a :: ((b :: _) as rest) => ok a b && adjacent ok rest
  | _ => true
  end.

Fixpoint indexed (ok : Z → float → bool) (i : Z) (t : list float) : bool :=
  match t with
  | [] => true
  | a :: rest => ok i a && indexed ok (Z.succ i) rest
  end.

Definition increasing_ok (a b : float) : bool := PrimFloat.ltb a b.

Definition within_ok (tol step a b : float) : bool :=
  PrimFloat.leb (PrimFloat.abs (PrimFloat.sub (PrimFloat.sub b a) step)) tol.

Definition grid_ok (step : float) (i : Z) (a : float) : bool :=
  PrimFloat.eqb a (PrimFloat.mul (of_index i) step).

(** The rounding tolerance of the grids: [2^-49]. *)
Definition tol : float := 0x1p-49%float.

End Numeric.

(* ===================================================================== *)
(** * Python values *)
(* ===================================================================== *)

(** NumPy arrays as the notebook has them: one-dimensional arrays of floats
    ([np.arange]) or of integers ([np.array([8, 7, 15])]) and two-dimensional
    arrays of floats, which carry their shape. *)
Inductive ndarray : Type :=
  | Vec (v : list float)
  | IVec (v : list Z)
  | Mat (nrows ncols : nat) (rows : list (list float)).

(** The values that flow between the notebook's calls.  [PyName] is an
    imported function or class used as a value ([lorenz], [UserWarning],
    [r2_score]); [PyObj] is a library object, known by its reference only. *)
Inductive pyval : Type :=
  | PyNone
  | PyBool (b : bool)
  | PyInt (n : Z)
  | PyFloat (x : float)
  | PyStr (s : string)
  | PyName (qualname : string)
  | PyTuple (items : list pyval)
  | PyList (items : list pyval)
  | PyDict (items : list (string * pyval))
  | PyArray (a : ndarray)
  | PyObj (ref : nat).

(** A Python exception: its class and its message. *)
Record exn : Type := Exn { exn_class : string; exn_msg : string }.

Inductive outcome (A : Type) : Type :=
  | Ok (a : A)
  | Raise (e : exn).
Arguments Ok {A} a.
Arguments Raise {A} e.

#[global] Instance pyval_inhabited : Inhabited pyval := populate PyNone.

(** [a.T]: the transpose of a two-dimensional array swaps the shape and
    turns the columns into rows; a one-dimensional array is its own
    transpose. *)
Definition columns (m : nat) (rows : list (list float)) : list (list float) :=
  foldr (zip_with cons) (replicate m []) rows.

Definition transpose (a : ndarray) : ndarray :=
  match a with
  | Mat n m rows => Mat m n (columns m rows)
  | _ => a
  end.

(** [a[i][j]] of a two-dimensional array; [None] out of its bounds. *)
Definition item (a : ndarray) (i j : nat) : option float :=
  match a with
  | Mat _ _ rows => r ← rows !! i; r !! j
  | _ => None
  end.

(** [len(v)], for the values that have one. *)
Definition pylen (v : pyval) : option nat :=
  match v with
  | PyTuple xs | PyList xs => Some (length xs)
  | PyArray (Vec xs) => Some (length xs)
  | PyArray (IVec xs) => Some (length xs)
  | PyArray (Mat n _ _) => Some n
  | _ => None
  end.

(** A two-dimensional array is well formed when its rows fit its shape. *)
Definition well_shaped (a : ndarray) : Prop :=
  match a with
  | Mat n m rows => length rows = n ∧ Forall (λ r, length r = m) rows
  | _ => True
  end.

(** ** Dictionaries

    A Python dictionary with string keys, and the keywords of a call: the
    items in insertion order, each key once. *)
Abbreviation dict := (list (string * pyval)).

Definition inb (k : string) (ks : list string) : bool :=
  existsb (String.eqb k) ks.

(** [d.get(name)]. *)
Fixpoint dict_get (name : string) (d : dict) : option pyval :=
  match d with
  | [] => None
  | (k, v) :: rest => if String.eqb k name then Some v else dict_get name rest
  end.

(** [d[name]], for a key that is there. *)
Definition dict_item (name : string) (d : dict) : pyval :=
  default PyNone (dict_get name d).

(** [d[name] = v]: in place when the key is there, at the end otherwise. *)
Fixpoint dict_set (name : string) (v : pyval) (d : dict) : dict :=
  match d with
  | [] => [(name, v)]
  | (k, v') :: rest =>
      if String.eqb k name then (k, v) :: rest
      else (k, v') :: dict_set name v rest
  end.

(** The keywords of a call [f(k1=v1, ..., **star)]: Python raises a
    [TypeError] when [star] repeats an explicit keyword. *)
Definition keywords (explicit star : dict) : outcome dict :=
  if existsb (λ k, inb k star.*1) explicit.*1
  then Raise (Exn "TypeError" "got multiple values for keyword argument")
  else Ok (explicit ++ star).

(* ===================================================================== *)
(** * Programs over library calls *)
(* ===================================================================== *)

(** What a call names: a function or class of an imported module, written
    as the notebook writes it; a method of an object; or a method of the
    parent class reached through [super(cls, self)]. *)
Inductive callee : Type :=
  | Fn (name : string)
  | Method (obj : pyval) (name : string)
  | Super (cls : string) (self : pyval) (name : string).

(** The operations the notebook asks of the Python runtime and of the
    libraries. *)
Inductive libop : Type :=
  | Import (module : string) (names : list string)
  | New (cls : string)
  | Call (f : callee) (args : list pyval) (kwargs : dict)
  | GetAttr (obj : pyval) (name : string).

(** Straight-line Python with exceptions.  [InCell n] marks the start of
    notebook cell [n]; [TryExcept] is Python's [try: ... except: ...]. *)
Inductive prog (A : Type) : Type :=
  | Ret (a : A)
  | Throw (e : exn)
  | Lib (op : libop) (k : pyval → prog A)
  | InCell (n : nat) (k : prog A)
  | TryExcept {X : Type} (body : prog X) (except : exn → prog X)
              (k : X → prog A).
Arguments Ret {A} a.
Arguments Throw {A} e.
Arguments Lib {A} op k.
Arguments InCell {A} n k.
Arguments TryExcept {A X} body except k.

Fixpoint bind {A B} (p : prog A) (f : A → prog B) : prog B :=
  match p with
  | Ret a => f a
  | Throw e => Throw e
  | Lib op k => Lib op (λ v, bind (k v) f)
  | InCell n k => InCell n (bind k f)
  | TryExcept body except k => TryExcept body except (λ x, bind (k x) f)
  end.

Declare Scope prog_scope.
Delimit Scope prog_scope with prog.
Bind Scope prog_scope with prog.
Notation "'let*' x := p 'in' q" := (bind p (λ x, q))
  (at level 10, x name, p at level 100, q at level 200) : prog_scope.
Open Scope prog_scope.

Definition lib (op : libop) : prog pyval := Lib op Ret.
Definition call (f : callee) (args : list pyval) (kwargs : dict)
  : prog pyval := lib (Call f args kwargs).
Definition getattr (obj : pyval) (name : string) : prog pyval :=
  lib (GetAttr obj name).
Definition import (module : string) (names : list string) : prog pyval :=
  lib (Import module names).

Definition lift {A} (o : outcome A) : prog A :=
  match o with Ok a => Ret a | Raise e => Throw e end.

Definition or_raise {A} (e : exn) (o : option A) : prog A :=
  match o with Some a => Ret a | None => Throw e end.

(** [v.T]: computed on an array, asked of the library on anything else. *)
Definition attr_T (v : pyval) : prog pyval :=
  match v with
  | PyArray a => Ret (PyArray (transpose a))
  | _ => getattr v "T"
  end.

(** A program without [try]. *)
Inductive try_free : ∀ {A}, prog A → Prop :=
  | try_free_ret {A} (a : A) : try_free (Ret a)
  | try_free_throw {A} e : try_free (@Throw A e)
  | try_free_lib {A} op (k : pyval → prog A) :
      (∀ v, try_free (k v)) → try_free (Lib op k)
  | try_free_cell {A} n (k : prog A) : try_free k → try_free (InCell n k).

(** ** Running a program against a library *)

(** One recorded call: the cell it was issued from, the operation and what
    the library answered. *)
Record entry : Type := Entry {
  e_cell : nat;
  e_op : libop;
  e_res : outcome pyval
}.

Section Run.
(** The state of the Python process and of its libraries, whatever it is:
    the objects, the warning filters, the random generator, the text
    written so far. *)
Context {W : Type}.

(** A library answers an operation in a state with a value or an
    exception, and a new state. *)
Definition handler : Type := libop → W → outcome pyval * W.

Record result (A : Type) : Type := Result {
  trace : list entry;
  out : outcome A;
  cell : nat;
  world : W
}.
Arguments Result {A} _ _ _ _.
Arguments trace {A} _.
Arguments out {A} _.
Arguments cell {A} _.
Arguments world {A} _.

Definition after {A} (pre : list entry) (r : result A) : result A :=
  Result (pre ++ trace r) (out r) (cell r) (world r).

Fixpoint run {A} (h : handler) (p : prog A) (c : nat) (w : W) : result A :=
  match p with
  | Ret a => Result [] (Ok a) c w
  | Throw e => Result [] (Raise e) c w
  | Lib op k =>
      let '(r, w') := h op w in
      match r with
      | Ok v => after [Entry c op r] (run h (k v) c w')
      | Raise e => Result [Entry c op r] (Raise e) c w'
      end
  | InCell n k => run h k n w
  | TryExcept body except k =>
      let r := run h body c w in
      match out r with
      | Ok x => after (trace r) (run h (k x) (cell r) (world r))
      | Raise e =>
          let r' := run h (except e) (cell r) (world r) in
          match out r' with
          | Ok x => after (trace r ++ trace r')
                          (run h (k x) (cell r') (world r'))
          | Raise e' =>
              Result (trace r ++ trace r') (Raise e') (cell r') (world r')
          end
      end
  end.

(** A run is complete when no exception ended it. *)
Definition completes {A} (r : result A) : Prop := ∃ a, out r = Ok a.

End Run.
Arguments handler : clear implicits.
Arguments result : clear implicits.
Arguments Result {W A} _ _ _ _.
Arguments trace {W A} _.
Arguments out {W A} _.
Arguments cell {W A} _.
Arguments world {W A} _.

(* ===================================================================== *)
(** * The class [SINDyCV] (notebook lines 233-273) *)
(* ===================================================================== *)

(** How Python binds the arguments of a call to the parameters of a
    [def f(p1, ..., pn=dn, **rest)], in the order CPython does it.  The
    positional arguments are bound first.  Then the keywords, in the order
    of the call: a keyword that names a parameter already bound by
    position is a [TypeError], and so is a keyword that names no
    parameter, unless the function has [**rest], which then takes it.
    Then a call with more positional arguments than parameters is a
    [TypeError]; defaults fill what is left, and a parameter without a
    value is a [TypeError].  The result is the bound parameters and
    [rest].  For a method, [self] is the first parameter and the object
    the first positional argument. *)
Fixpoint keyword_error (params positional : list string)
    (var_keyword : bool) (kw : dict) : option exn :=
  match kw with
  | [] => None
  | (k, _) :: later =>
      if inb k params then
        if inb k positional
        then Some (Exn "TypeError" "got multiple values for argument")
        else keyword_error params positional var_keyword later
      else if var_keyword
           then keyword_error params positional var_keyword later
           else Some (Exn "TypeError" "got an unexpected keyword argument")
  end.

Definition bind_args (params : list string) (defaults : dict)
    (var_keyword : bool) (args : list pyval) (kw : dict)
  : outcome (dict * dict) :=
  let positional := zip params args in
  match keyword_error params positional.*1 var_keyword kw with
  | Some e => Raise e
  | None =>
      if length params <? length args then
        Raise (Exn "TypeError" "too many positional arguments")
      else
        let named :=
          List.filter (λ kv : string * pyval, inb kv.1 params) kw in
        let rest :=
          List.filter (λ kv : string * pyval, negb (inb kv.1 params)) kw in
        let bound := positional ++ named ++ defaults in
        if forallb (λ p, inb p bound.*1) params
        then Ok (bound, rest)
        else Raise (Exn "TypeError"
                        "missing a required positional argument")
  end.

Module SINDyCV.

Definition name : string := "SINDyCV".

(** The parameters of [__init__] after [self], and their defaults. *)
Definition init_params : list string :=
  ["optimizer"; "feature_library"; "differentiation_method";
   "feature_names"; "t_default"; "discrete_time"].

Definition init_defaults : dict :=
  [("optimizer", PyNone); ("feature_library", PyNone);
   ("differentiation_method", PyNone); ("feature_names", PyNone);
   ("t_default", PyInt 1); ("discrete_time", PyBool false)].

(** [__init__]: hands its six parameters, by keyword, to the parent's
    [__init__]. *)
Definition init (self optimizer feature_library differentiation_method
                 feature_names t_default discrete_time : pyval)
  : prog pyval :=
  call (Super name self "__init__") []
    [("optimizer", optimizer); ("feature_library", feature_library);
     ("differentiation_method", differentiation_method);
     ("feature_names", feature_names); ("t_default", t_default);
     ("discrete_time", discrete_time)].

(** A call of the class, [SINDyCV(...)]: a new instance, handed to
    [__init__] as [self] before the arguments of the call. *)
Definition new (args : list pyval) (kw : dict) : prog pyval :=
  let* self := lib (New name) in
  let* b := lift (bind_args ("self" :: init_params) init_defaults false
                            (self :: args) kw) in
  let* _ := init (dict_item "self" b.1) (dict_item "optimizer" b.1)
              (dict_item "feature_library" b.1)
              (dict_item "differentiation_method" b.1)
              (dict_item "feature_names" b.1)
              (dict_item "t_default" b.1)
              (dict_item "discrete_time" b.1) in
  Ret self.

(** [fit(self, x, y, **kwargs)]:
    [return super(SINDyCV, self).fit(x, x_dot=y, **kwargs)]. *)
Definition fit (self x y : pyval) (kwargs : dict) : prog pyval :=
  let* kw := lift (keywords [("x_dot", y)] kwargs) in
  call (Super name self "fit") [x] kw.

(** The explicit keywords of the call in [score]. *)
Definition score_keywords (y t u multiple_trajectories metric : pyval)
  : dict :=
  [("x_dot", y); ("t", t); ("u", u);
   ("multiple_trajectories", multiple_trajectories); ("metric", metric)].

(** [score(self, x, y, t, u, multiple_trajectories, metric, **metric_kws)]:
    the same call on the parent, with [x_dot=y]. *)
Definition score (self x y t u multiple_trajectories metric : pyval)
    (metric_kws : dict) : prog pyval :=
  let* kw := lift (keywords
                     (score_keywords y t u multiple_trajectories metric)
                     metric_kws) in
  call (Super name self "score") [x] kw.

Definition score_params : list string :=
  ["x"; "y"; "t"; "u"; "multiple_trajectories"; "metric"].

(** [t=None, u=None, multiple_trajectories=False, metric=r2_score]. *)
Definition score_defaults : dict :=
  [("t", PyNone); ("u", PyNone); ("multiple_trajectories", PyBool false);
   ("metric", PyName "r2_score")].

(** The methods as a caller reaches them, with positional and keyword
    arguments still to be bound: [model.fit(...)], [model.score(...)].
    The object is the first positional argument, bound to [self]. *)
Definition call_fit (self : pyval) (args : list pyval) (kw : dict)
  : prog pyval :=
  let* b := lift (bind_args ["self"; "x"; "y"] [] true (self :: args) kw) in
  fit (dict_item "self" b.1) (dict_item "x" b.1) (dict_item "y" b.1) b.2.

Definition call_score (self : pyval) (args : list pyval) (kw : dict)
  : prog pyval :=
  let* b := lift (bind_args ("self" :: score_params) score_defaults true
                            (self :: args) kw) in
  score (dict_item "self" b.1) (dict_item "x" b.1) (dict_item "y" b.1)
        (dict_item "t" b.1) (dict_item "u" b.1)
        (dict_item "multiple_trajectories" b.1)
        (dict_item "metric" b.1) b.2.

End SINDyCV.

(* ===================================================================== *)
(** * The notebook, cell by cell *)
(* ===================================================================== *)

Module Notebook.

(** The names cell 2 binds. *)
Record data : Type := Data {
  dt : float;
  t_train : list float;
  t_train_span : pyval;
  x0_train : pyval;
  x_train : pyval;
  t_test : list float;
  t_test_span : pyval;
  x0_test : pyval;
  x_test : option pyval
}.

Definition IndexError : exn := Exn "IndexError" "index out of bounds".
Definition ValueError : exn := Exn "ValueError" "arange: cannot compute length".

(** Cell 1, lines 36-50: imports, the two warning filters and the
    keywords of the integrator.  It binds [integrator_keywords]. *)
Definition setup : prog (dict) :=
  let* _ := import "numpy" ["np"] in
  let* _ := import "scipy.integrate" ["solve_ivp"] in
  let* _ := import "pysindy.utils" ["lorenz"] in
  let* _ := import "pysindy" ["ps"] in
  let* _ := import "warnings" ["warnings"] in
  let* _ := call (Fn "warnings.filterwarnings") [PyStr "ignore"]
                 [("category", PyName "UserWarning")] in
  let* _ := call (Fn "warnings.filterwarnings") [PyStr "ignore"]
                 [("category", PyName "FutureWarning")] in
  let integrator_keywords : dict := [] in
  let integrator_keywords :=
    dict_set "rtol" (PyFloat 1e-15%float) integrator_keywords in
  let integrator_keywords :=
    dict_set "method" (PyStr "LSODA") integrator_keywords in
  let integrator_keywords :=
    dict_set "atol" (PyFloat 1e-10%float) integrator_keywords in
  Ret integrator_keywords.

(** Cell 2, lines 72-85: the training and the test trajectory.  The
    initial condition of the test trajectory is a parameter, and the
    computation of [x_test] can be left out, for the comparison of runs;
    the notebook itself is [generate_data] below. *)
Definition generate_data_with (x0_test_value : pyval) (with_x_test : bool)
    (integrator_keywords : dict) : prog data :=
  let dt := 0.002%float in
  let* t_train :=
    or_raise ValueError (Numeric.np_arange 0%float 10%float dt) in
  let* t_first := or_raise IndexError (Numeric.getitem t_train 0) in
  let* t_last := or_raise IndexError (Numeric.getitem t_train (-1)) in
  let t_train_span := PyTuple [PyFloat t_first; PyFloat t_last] in
  let x0_train := PyList [PyInt (-8); PyInt 8; PyInt 27] in
  let* kw := lift (keywords [("t_eval", PyArray (Vec t_train))]
                            integrator_keywords) in
  let* sol := call (Fn "solve_ivp")
                   [PyName "lorenz"; t_train_span; x0_train] kw in
  let* y := getattr sol "y" in
  let* x_train := attr_T y in
  let* t_test :=
    or_raise ValueError (Numeric.np_arange 0%float 15%float dt) in
  let* t_first := or_raise IndexError (Numeric.getitem t_test 0) in
  let* t_last := or_raise IndexError (Numeric.getitem t_test (-1)) in
  let t_test_span := PyTuple [PyFloat t_first; PyFloat t_last] in
  let x0_test := x0_test_value in
  if with_x_test then
    let* kw := lift (keywords [("t_eval", PyArray (Vec t_test))]
                              integrator_keywords) in
    let* sol := call (Fn "solve_ivp")
                     [PyName "lorenz"; t_test_span; x0_test] kw in
    let* y := getattr sol "y" in
    let* x_test := attr_T y in
    Ret (Data dt t_train t_train_span x0_train x_train
              t_test t_test_span x0_test (Some x_test))
  else
    Ret (Data dt t_train t_train_span x0_train x_train
              t_test t_test_span x0_test None).

(** [x0_test = np.array([8, 7, 15])]. *)
Definition x0_test_array : pyval := PyArray (IVec [8; 7; 15]%Z).

Definition generate_data : dict → prog data :=
  generate_data_with x0_test_array true.

(** Cell 3, lines 130-150: grid search with [TimeSeriesSplit]. *)
Definition cv_time_series_split (d : data) : prog unit :=
  let* _ := import "sklearn.model_selection" ["GridSearchCV"] in
  let* _ := import "sklearn.model_selection" ["TimeSeriesSplit"] in
  let* model := call (Fn "ps.SINDy") [] [("t_default", PyFloat (dt d))] in
  let* polynomial := call (Fn "ps.PolynomialLibrary") [] [] in
  let* fourier := call (Fn "ps.FourierLibrary") [] [] in
  let param_grid := PyDict
    [("optimizer__threshold", PyList [PyFloat 0.001%float; PyFloat 0.01%float; PyFloat 0.1%float]); ("optimizer__alpha", PyList [PyFloat 0.01%float; PyFloat 0.05%float; PyFloat 0.1%float]); ("feature_library", PyList [polynomial; fourier]); ("differentiation_method__order", PyList [PyInt 1; PyInt 2])] in
  let* cv := call (Fn "TimeSeriesSplit") [] [("n_splits", PyInt 5)] in
  let* search := call (Fn "GridSearchCV") [model; param_grid]
                      [("cv", cv)] in
  let* _ := call (Method search "fit") [x_train d] [] in
  let* best_params := getattr search "best_params_" in
  let* _ := call (Fn "print") [PyStr "Best parameters:"; best_params] [] in
  let* best_estimator := getattr search "best_estimator_" in
  let* _ := call (Method best_estimator "print") [] [] in
  Ret ().

(** Cell 4, lines 182-206: the same search over a [SINDyDerivative]. *)
Definition cv_sindy_derivative (d : data) : prog unit :=
  let* differentiation_method :=
    call (Fn "ps.SINDyDerivative") []
         [("kind", PyStr "spline"); ("s", PyFloat 1e-2%float)] in
  let* model := call (Fn "ps.SINDy") []
                     [("t_default", PyFloat (dt d)); ("differentiation_method", differentiation_method)] in
  let param_grid := PyDict
    [("optimizer__threshold", PyList [PyFloat 0.001%float; PyFloat 0.01%float; PyFloat 0.1%float]); ("differentiation_method__kwargs", PyList [
           PyDict [("kind", PyStr "spline"); ("s", PyFloat 1e-2%float)];
           PyDict [("kind", PyStr "spline"); ("s", PyFloat 1e-1%float)];
           PyDict [("kind", PyStr "finite_difference"); ("k", PyInt 1)];
           PyDict [("kind", PyStr "finite_difference"); ("k", PyInt 2)]
         ])] in
  let* cv := call (Fn "TimeSeriesSplit") [] [("n_splits", PyInt 5)] in
  let* search := call (Fn "GridSearchCV") [model; param_grid]
                      [("cv", cv)] in
  let* _ := call (Method search "fit") [x_train d] [] in
  let* best_params := getattr search "best_params_" in
  let* _ := call (Fn "print") [PyStr "Best parameters:"; best_params] [] in
  let* best_estimator := getattr search "best_estimator_" in
  let* _ := call (Method best_estimator "print") [] [] in
  Ret ().

(** Cell 5, lines 231-273: the import of [r2_score]; the class statement
    itself is [Module SINDyCV] above. *)
Definition define_SINDyCV : prog unit :=
  let* _ := import "sklearn.metrics" ["r2_score"] in
  Ret ().

(** Cell 6, lines 301-319: grid search with [ShuffleSplit] over derivatives
    computed beforehand. *)
Definition cv_shuffle_split (d : data) : prog unit :=
  let* _ := import "sklearn.model_selection" ["ShuffleSplit"] in
  let* model := SINDyCV.new [] [] in
  let* x_dot := call (Method model "differentiate") [x_train d]
                     [("t", PyArray (Vec (t_train d)))] in
  let param_grid := PyDict
    [("optimizer__threshold", PyList [PyFloat 0.002%float; PyFloat 0.01%float; PyFloat 0.1%float]); ("optimizer__alpha", PyList [PyFloat 0.01%float; PyFloat 0.05%float; PyFloat 0.1%float]); ("feature_library__degree", PyList [PyInt 1; PyInt 2; PyInt 3])] in
  let* cv := call (Fn "ShuffleSplit") []
                  [("n_splits", PyInt 3); ("test_size", PyFloat 0.25%float)] in
  let* search := call (Fn "GridSearchCV") [model; param_grid]
                      [("cv", cv)] in
  let* _ := call (Method search "fit") [x_train d] [("y", x_dot)] in
  let* best_params := getattr search "best_params_" in
  let* _ := call (Fn "print") [PyStr "Best parameters:"; best_params] [] in
  let* best_estimator := getattr search "best_estimator_" in
  let* _ := call (Method best_estimator "print") [] [] in
  Ret ().

(** Cell 7, lines 353-359: an elastic net as the optimizer. *)
Definition elastic_net (d : data) : prog unit :=
  let* _ := import "sklearn.linear_model" ["ElasticNet"] in
  let* optimizer := call (Fn "ElasticNet") []
                         [("l1_ratio", PyFloat 0.9%float); ("fit_intercept", PyBool false)] in
  let* model := call (Fn "ps.SINDy") []
                     [("optimizer", optimizer); ("t_default", PyFloat (dt d))] in
  let* _ := call (Method model "fit") [x_train d] [] in
  let* _ := call (Method model "print") [] [] in
  Ret ().

(** Cell 8, lines 383-391: orthogonal matching pursuit as the optimizer. *)
Definition orthogonal_matching_pursuit (d : data) : prog unit :=
  let* _ := import "sklearn.linear_model" ["OrthogonalMatchingPursuit"] in
  let* optimizer := call (Fn "OrthogonalMatchingPursuit") []
                         [("n_nonzero_coefs", PyInt 8); ("fit_intercept", PyBool false)] in
  let* model := call (Fn "ps.SINDy") []
                     [("optimizer", optimizer); ("t_default", PyFloat (dt d))] in
  let* _ := call (Method model "fit") [x_train d] [] in
  let* _ := call (Method model "print") [] [] in
  Ret ().

(** The cells that follow the generation of the data. *)
Definition experiments (d : data) : prog unit :=
  let* _ := InCell 3 (cv_time_series_split d) in
  let* _ := InCell 4 (cv_sindy_derivative d) in
  let* _ := InCell 5 define_SINDyCV in
  let* _ := InCell 6 (cv_shuffle_split d) in
  let* _ := InCell 7 (elastic_net d) in
  InCell 8 (orthogonal_matching_pursuit d).

(** Cells 1 and 2. *)
Definition data_cells (x0_test_value : pyval) (with_x_test : bool)
  : prog data :=
  let* integrator_keywords := InCell 1 setup in
  InCell 2 (generate_data_with x0_test_value with_x_test
                               integrator_keywords).

(** A run of all cells, in order. *)
Definition notebook_with (x0_test_value : pyval) (with_x_test : bool)
  : prog unit :=
  let* d := data_cells x0_test_value with_x_test in
  experiments d.

Definition notebook : prog unit := notebook_with x0_test_array true.

End Notebook.

(** A library for examples: it keeps a counter of the objects it made and
    answers a constructor or a method call with a new object, an attribute
    read with the object itself; [solve_ivp] answers with an array of
    zeros of the shape scipy documents, [(len(y0), len(t_eval))]. *)
Module Toy.

Definition zeros (n m : nat) : pyval :=
  PyArray (Mat n m (replicate n (replicate m 0%float))).

Definition solve_ivp (args : list pyval) (kw : dict)
  : outcome pyval :=
  match args, dict_get "t_eval" kw with
  | [_; _; y0], Some t_eval =>
      match pylen y0, pylen t_eval with
      | Some n, Some m => Ok (zeros n m)
      | _, _ => Raise (Exn "ValueError" "y0 must be 1-dimensional")
      end
  | _, _ => Raise (Exn "TypeError" "missing argument")
  end.

Definition library : handler nat := λ op w,
  match op with
  | Import _ _ => (Ok PyNone, w)
  | New _ => (Ok (PyObj w), S w)
  | Call (Fn name) args kw =>
      if decide (name = "solve_ivp") then (solve_ivp args kw, w)
      else if decide (name = "print") then (Ok PyNone, S w)
      else if decide (name = "warnings.filterwarnings") then (Ok PyNone, S w)
      else (Ok (PyObj w), S w)
  | Call (Method _ name) _ _ =>
      if decide (name = "differentiate") then (Ok (PyObj w), S w)
      else (Ok PyNone, S w)
  | Call (Super _ self _) _ _ => (Ok PyNone, S w)
  | GetAttr obj _ => (Ok obj, w)
  end.

End Toy.

(* ===================================================================== *)
(** * The grids computed *)
(* ===================================================================== *)

Module Grids.
Import Numeric.

Lemma adjacent_spec ok t :
  adjacent ok t = true →
  ∀ i a b, t !! i = Some a → t !! S i = Some b → ok a b = true.
Proof.
  induction t as [|x [|y t] IH]; intros Hadj i a b Ha Hb.
  - done.
  - destruct i; done.
  - cbn [adjacent] in Hadj. apply andb_prop in Hadj as [Hxy Hrest].
    destruct i as [|i]; simpl in Ha, Hb.
    + by simplify_eq.
    + by apply (IH Hrest i).
Qed.

Lemma indexed_spec ok t n :
  indexed ok n t = true →
  ∀ i a, t !! i = Some a → ok (n + Z.of_nat i)%Z a = true.
Proof.
  revert n. induction t as [|x t IH]; intros n Hall i a Ha; [done|].
  cbn [indexed] in Hall. apply andb_prop in Hall as [Hx Hrest].
  destruct i as [|i]; simpl in Ha.
  - simplify_eq. by rewrite Z.add_0_r.
  - replace (n + Z.of_nat (S i))%Z with (Z.succ n + Z.of_nat i)%Z by lia.
    by apply IH.
Qed.

Lemma arange_train : np_arange 0%float 10%float dt = Some t_train.
Proof. vm_refl. Qed.

Lemma arange_test : np_arange 0%float 15%float dt = Some t_test.
Proof. vm_refl. Qed.

Lemma length_arange_from start next i n :
  length (arange_from start next i n) = n.
Proof. revert i. induction n as [|n IH]; intros i; cbn; by rewrite ?IH. Qed.

Lemma length_t_train : length t_train = 5000.
Proof. unfold t_train, arange_fill. by rewrite length_arange_from. Qed.

Lemma length_t_test : length t_test = 7500.
Proof. unfold t_test, arange_fill. by rewrite length_arange_from. Qed.

(** At the edges: a quotient that underflows gives one entry; a zero step
    and a length beyond the address space are errors. *)
Lemma arange_edges :
  np_arange 0%float 1e-300%float 1e300%float = Some [0%float] ∧
  np_arange 0%float 10%float 0%float = None ∧
  np_arange 0%float 1e19%float 1%float = None ∧
  np_arange 10%float 0%float dt = Some [].
Proof. repeat split; vm_refl. Qed.

End Grids.

(* ===================================================================== *)
(** * Reasoning about every run *)
(* ===================================================================== *)

Section Logic.
Context {W : Type}.
Implicit Types (h : handler W) (w : W) (c : nat) (hist : list entry).

Lemma trace_after {A} pre (r : result W A) :
  trace (after pre r) = pre ++ trace r.
Proof. done. Qed.

Lemma out_after {A} pre (r : result W A) : out (after pre r) = out r.
Proof. done. Qed.

Lemma world_after {A} pre (r : result W A) : world (after pre r) = world r.
Proof. done. Qed.

(** The equations of [run] on a library call. *)
Lemma run_lib_ok {A} h op (k : pyval → prog A) c w v w' :
  h op w = (Ok v, w') →
  run h (Lib op k) c w = after [Entry c op (Ok v)] (run h (k v) c w').
Proof. intros Hop. cbn [run]. by rewrite Hop. Qed.

Lemma run_lib_raise {A} h op (k : pyval → prog A) c w x w' :
  h op w = (Raise x, w') →
  run h (Lib op k) c w = Result [Entry c op (Raise x)] (Raise x) c w'.
Proof. intros Hop. cbn [run]. by rewrite Hop. Qed.

(** ** Postconditions on the trace and the outcome *)

(** [wp P c hist p]: whatever the library answers, a run of [p] that
    starts in cell [c] after the calls [hist] ends with a trace and an
    outcome that satisfy [P].  There is no rule for [TryExcept]: the
    judgement is about programs without [try]. *)
Inductive wp {A} (P : list entry → outcome A → Prop)
  : nat → list entry → prog A → Prop :=
  | wp_ret c hist a : P hist (Ok a) → wp P c hist (Ret a)
  | wp_throw c hist x : P hist (Raise x) → wp P c hist (Throw x)
  | wp_lib c hist op k :
      (∀ x, P (hist ++ [Entry c op (Raise x)]) (Raise x)) →
      (∀ v, wp P c (hist ++ [Entry c op (Ok v)]) (k v)) →
      wp P c hist (Lib op k)
  | wp_cell c hist n k : wp P n hist k → wp P c hist (InCell n k).

Lemma wp_sound {A} (P : list entry → outcome A → Prop) c hist p :
  wp P c hist p →
  ∀ h w, P (hist ++ trace (run h p c w)) (out (run h p c w)).
Proof.
  induction 1 as [c hist a HP|c hist x HP|c hist op k Hraise _ IH
                 |c hist n k _ IH]; intros h w.
  - cbn. by rewrite app_nil_r.
  - cbn. by rewrite app_nil_r.
  - destruct (h op w) as [[v|x] w'] eqn:Hop.
    + rewrite (run_lib_ok _ _ _ _ _ _ _ Hop), trace_after, out_after.
      rewrite app_assoc. apply IH.
    + rewrite (run_lib_raise _ _ _ _ _ _ _ Hop). cbn. apply Hraise.
  - cbn [run]. apply IH.
Qed.

(** ** Invariants of the history *)

(** [obeys Q tr]: every call of [tr] satisfies [Q] of the calls before
    it, of its cell and of its operation. *)
Definition obeys (Q : list entry → nat → libop → Prop) (tr : list entry)
  : Prop :=
  ∀ i e, tr !! i = Some e → Q (take i tr) (e_cell e) (e_op e).

Lemma obeys_snoc Q tr e :
  obeys Q tr → Q tr (e_cell e) (e_op e) → obeys Q (tr ++ [e]).
Proof.
  intros Htr He i e' Hi.
  destruct (decide (i < length tr)) as [Hlt|Hge].
  - rewrite lookup_app_l in Hi by done.
    rewrite take_app_le by lia. by apply Htr.
  - apply lookup_lt_Some in Hi as Hi'. rewrite length_app in Hi'.
    cbn in Hi'. assert (i = length tr) as -> by lia.
    rewrite list_lookup_middle in Hi by done. simplify_eq.
    rewrite take_app_length. done.
Qed.

Lemma obeys_nil Q : obeys Q [].
Proof. intros i e Hi. done. Qed.

(** [inv Q c hist p]: [p] only issues calls that satisfy [Q], whatever
    the library answers. *)
Inductive inv (Q : list entry → nat → libop → Prop) {A}
  : nat → list entry → prog A → Prop :=
  | inv_ret c hist a : inv Q c hist (Ret a)
  | inv_throw c hist x : inv Q c hist (Throw x)
  | inv_lib c hist op k :
      Q hist c op →
      (∀ v, inv Q c (hist ++ [Entry c op (Ok v)]) (k v)) →
      inv Q c hist (Lib op k)
  | inv_cell c hist n k : inv Q n hist k → inv Q c hist (InCell n k).

Lemma inv_sound Q {A} c hist (p : prog A) :
  inv Q c hist p → obeys Q hist →
  ∀ h w, obeys Q (hist ++ trace (run h p c w)).
Proof.
  induction 1 as [c hist a|c hist x|c hist op k HQ _ IH|c hist n k _ IH];
    intros Hhist h w.
  - cbn. by rewrite app_nil_r.
  - cbn. by rewrite app_nil_r.
  - destruct (h op w) as [[v|x] w'] eqn:Hop.
    + rewrite (run_lib_ok _ _ _ _ _ _ _ Hop), trace_after, app_assoc.
      apply IH. by apply obeys_snoc.
    + rewrite (run_lib_raise _ _ _ _ _ _ _ Hop). cbn.
      by apply obeys_snoc.
  - cbn [run]. by apply IH.
Qed.

Lemma inv_run Q {A} (p : prog A) :
  inv Q 0 [] p → ∀ h w, obeys Q (trace (run h p 0 w)).
Proof. intros Hp h w. apply (inv_sound Q 0 [] p Hp (obeys_nil Q) h w). Qed.

(** ** Exceptions in programs without [try] *)

(** A call that raised is the last call of the run, and its exception is
    the outcome of the run: nothing caught it, nothing was retried. *)
Lemma try_free_raise_final {A} (p : prog A) :
  try_free p →
  ∀ h c w i e x,
    trace (run h p c w) !! i = Some e → e_res e = Raise x →
    S i = length (trace (run h p c w)) ∧ out (run h p c w) = Raise x.
Proof.
  induction 1 as [A a|A x0|A op k _ IH|A n k _ IH]; intros h c w i e x Hi He.
  - done.
  - done.
  - destruct (h op w) as [[v|x'] w'] eqn:Hop.
    + rewrite (run_lib_ok _ _ _ _ _ _ _ Hop) in Hi |- *.
      rewrite trace_after in Hi. rewrite trace_after, out_after.
      destruct i as [|i]; cbn in Hi.
      * by simplify_eq.
      * destruct (IH v h c w' i e x Hi He) as [Hlen Hout].
        split; [|done]. cbn. by rewrite Hlen.
    + rewrite (run_lib_raise _ _ _ _ _ _ _ Hop) in Hi |- *. cbn in Hi |- *.
      destruct i as [|i]; cbn in Hi; [|done].
      simplify_eq. cbn in He. by simplify_eq.
  - cbn [run] in Hi |- *. by apply (IH h n w i e x).
Qed.

(** Conversely, a run that ends with an exception and made a call that
    raised it: in a program that never throws by itself, every exception
    comes from the library. *)
Lemma try_free_complete_ok {A} (p : prog A) :
  try_free p →
  ∀ h c w, completes (run h p c w) →
           Forall (λ e, ∃ v, e_res e = Ok v) (trace (run h p c w)).
Proof.
  intros Hp h c w [a Ha]. apply Forall_lookup. intros i e Hi.
  destruct (e_res e) as [v|x] eqn:He; [by eexists|].
  destruct (try_free_raise_final p Hp h c w i e x Hi He) as [_ Hout].
  congruence.
Qed.

End Logic.

Section Bind.
Context {W : Type} (h : handler W).

(** A run of [bind p f] is a run of [p] followed, when [p] returns, by a
    run of [f] on what it returned. *)
Definition then_run {A B} (r : result W A) (f : A → prog B) : result W B :=
  match out r with
  | Ok a => after (trace r) (run h (f a) (cell r) (world r))
  | Raise e => Result (trace r) (Raise e) (cell r) (world r)
  end.

Lemma after_after {A} (pre pre' : list entry) (r : result W A) :
  after pre (after pre' r) = after (pre ++ pre') r.
Proof. unfold after. cbn. by rewrite app_assoc. Qed.

Lemma then_run_after {A B} pre (r : result W A) (f : A → prog B) :
  then_run (after pre r) f = after pre (then_run r f).
Proof.
  unfold then_run. cbn. destruct (out r); cbn.
  - by rewrite after_after.
  - done.
Qed.

Lemma run_bind {A B} (p : prog A) (f : A → prog B) c w :
  run h (bind p f) c w = then_run (run h p c w) f.
Proof.
  revert B f c w.
  induction p as [A a|A e|A op k IH|A n k IH|A X body _ except _ k IH];
    intros B f c w.
  - unfold then_run. cbn. by destruct (run h (f a) c w).
  - done.
  - cbn [bind run]. destruct (h op w) as [[v|x] w'].
    + rewrite IH. by rewrite then_run_after.
    + done.
  - cbn [bind run]. apply IH.
  - cbn [bind run]. destruct (out (run h body c w)) as [x|e].
    + rewrite IH. by rewrite then_run_after.
    + destruct (out (run h (except e) _ _)) as [x|e'].
      * rewrite IH. by rewrite then_run_after.
      * done.
Qed.
End Bind.

(* ===================================================================== *)
(** * The calls of the notebook *)
(* ===================================================================== *)

Module Calls.
Import Notebook.

(** What cell 1 binds to [integrator_keywords]. *)
Definition integrator_keywords : dict :=
  [("rtol", PyFloat 1e-15%float); ("method", PyStr "LSODA");
   ("atol", PyFloat 1e-10%float)].

Definition t_train_span : pyval :=
  PyTuple [PyFloat 0%float; PyFloat 9.9979999999999993%float].
Definition t_test_span : pyval :=
  PyTuple [PyFloat 0%float; PyFloat 14.998000000000001%float].
Definition x0_train : pyval := PyList [PyInt (-8); PyInt 8; PyInt 27].

(** The keywords of the two calls of [solve_ivp]:
    [t_eval=..., **integrator_keywords]. *)
Definition train_keywords : dict :=
  ("t_eval", PyArray (Vec Numeric.t_train)) :: integrator_keywords.
Definition test_keywords : dict :=
  ("t_eval", PyArray (Vec Numeric.t_test)) :: integrator_keywords.

Definition solve_train : libop :=
  Call (Fn "solve_ivp") [PyName "lorenz"; t_train_span; x0_train]
       train_keywords.
Definition solve_test (x0 : pyval) : libop :=
  Call (Fn "solve_ivp") [PyName "lorenz"; t_test_span; x0] test_keywords.

Definition data_of (x0 x_train : pyval) (x_test : option pyval) : data :=
  Data 0.002%float Numeric.t_train t_train_span x0_train x_train
       Numeric.t_test t_test_span x0 x_test.

Lemma keywords_t_eval v :
  keywords [("t_eval", v)] integrator_keywords
  = Ok (("t_eval", v) :: integrator_keywords).
Proof. reflexivity. Qed.

Lemma span_train :
  Numeric.getitem Numeric.t_train 0 = Some 0%float ∧
  Numeric.getitem Numeric.t_train (-1) = Some 9.9979999999999993%float.
Proof. split; vm_refl. Qed.

Lemma span_test :
  Numeric.getitem Numeric.t_test 0 = Some 0%float ∧
  Numeric.getitem Numeric.t_test (-1) = Some 14.998000000000001%float.
Proof. split; vm_refl. Qed.

Lemma setup_tree :
  setup =
  let* _ := import "numpy" ["np"] in
  let* _ := import "scipy.integrate" ["solve_ivp"] in
  let* _ := import "pysindy.utils" ["lorenz"] in
  let* _ := import "pysindy" ["ps"] in
  let* _ := import "warnings" ["warnings"] in
  let* _ := call (Fn "warnings.filterwarnings") [PyStr "ignore"]
                 [("category", PyName "UserWarning")] in
  let* _ := call (Fn "warnings.filterwarnings") [PyStr "ignore"]
                 [("category", PyName "FutureWarning")] in
  Ret integrator_keywords.
Proof. reflexivity. Qed.

(** Cell 2 once the grids are computed: two calls of [solve_ivp], each
    followed by the reads of [.y] and [.T]. *)
Lemma generate_data_with_tree x0 with_x_test :
  generate_data_with x0 with_x_test integrator_keywords =
  let* sol := lib solve_train in
  let* y := getattr sol "y" in
  let* x_train := attr_T y in
  if with_x_test then
    let* sol := lib (solve_test x0) in
    let* y := getattr sol "y" in
    let* x_test := attr_T y in
    Ret (data_of x0 x_train (Some x_test))
  else Ret (data_of x0 x_train None).
Proof.
  unfold generate_data_with. cbv zeta.
  change 0.002%float with Numeric.dt.
  rewrite Grids.arange_train, Grids.arange_test.
  cbn [or_raise bind].
  destruct span_train as [-> ->]. destruct span_test as [-> ->].
  cbn [or_raise bind].
  rewrite !keywords_t_eval. cbn [lift bind].
  by destruct with_x_test.
Qed.

(** [SINDyCV()]: no argument, so every parameter of [__init__] has its
    default when the parent's [__init__] is called. *)
Lemma bind_init_defaults self :
  bind_args ("self" :: SINDyCV.init_params) SINDyCV.init_defaults false
            [self] []
  = Ok (("self"%string, self) :: SINDyCV.init_defaults, []).
Proof. reflexivity. Qed.

Lemma new_default_tree :
  SINDyCV.new [] [] =
  let* self := lib (New SINDyCV.name) in
  let* _ := call (Super SINDyCV.name self "__init__") []
                 SINDyCV.init_defaults in
  Ret self.
Proof. reflexivity. Qed.

Lemma attr_T_cases v :
  (∃ a, v = PyArray a ∧ attr_T v = Ret (PyArray (transpose a)))
  ∨ attr_T v = getattr v "T".
Proof. destruct v; eauto. Qed.

End Calls.

(** Bring a run of the notebook to the tree of its calls. *)
Ltac program_tree :=
  unfold Notebook.notebook, Notebook.notebook_with, Notebook.data_cells,
    Notebook.experiments;
  rewrite ?Calls.setup_tree;
  cbn [bind import call lib getattr];
  rewrite ?Calls.generate_data_with_tree;
  unfold Notebook.cv_time_series_split, Notebook.cv_sindy_derivative,
    Notebook.define_SINDyCV, Notebook.cv_shuffle_split,
    Notebook.elastic_net, Notebook.orthogonal_matching_pursuit;
  rewrite ?Calls.new_default_tree;
  unfold Calls.data_of;
  cbn [bind import call lib getattr lift or_raise
       Notebook.dt Notebook.x_train Notebook.t_train].

(** The tree of [p], computed aside; the one conversion that replaces [p]
    by its tree is all that is left in the proof. *)
Ltac tree_of p :=
  let s := constr:(ltac:(eexists; program_tree; reflexivity)
                   : { T | p = T }) in
  lazymatch s with
  | exist _ ?T _ => T
  end.

Ltac as_tree p := let T := tree_of p in change p with T.

(** Walk the tree of a program, with [check] for the obligation at each
    call; the two shapes of [.T] and of an [if] are split. *)
Ltac walk_inv check :=
  repeat lazymatch goal with
    | |- inv _ _ _ (InCell _ _) => apply inv_cell
    | |- inv _ _ _ (Ret _) => apply inv_ret
    | |- inv _ _ _ (Throw _) => apply inv_throw
    | |- inv _ _ _ (Lib _ _) =>
        apply inv_lib; [check | intros ?; cbn [app bind]]
    | |- inv _ _ _ ?p =>
        lazymatch p with
        | context [attr_T ?y] =>
            destruct (Calls.attr_T_cases y) as [(? & -> & ->) | ->];
            cbn [bind getattr lib]
        | context [if ?b then _ else _] => destruct b; cbn [bind]
        end
    end.


(* ===================================================================== *)
(** * The time vectors *)
(* ===================================================================== *)

Module TimeVectors.
Import Numeric Grids.

(** The invariant of the data model, read with the arithmetic of the
    code: strictly increasing, and [t[i+1] - t[i] == dt] at every index. *)
Definition invariant (t : list float) : Prop :=
  strictly_increasing t ∧ uniformly_spaced dt t.

Lemma increasing_checked :
  adjacent increasing_ok t_train = true ∧ adjacent increasing_ok t_test = true.
Proof. split; vm_refl. Qed.

Lemma within_checked :
  adjacent (within_ok tol dt) t_train = true ∧
  adjacent (within_ok tol dt) t_test = true.
Proof. split; vm_refl. Qed.

Lemma grid_checked :
  indexed (grid_ok dt) 0 t_train = true ∧ indexed (grid_ok dt) 0 t_test = true.
Proof. split; vm_refl. Qed.

(** [t_train[8]] and [t_train[9]]: [8 * dt] is exact, [9 * dt] is rounded,
    and their difference is not [dt]. *)
Lemma gap_at_8 :
  t_train !! 8 = Some 0.016%float ∧
  t_train !! 9 = Some 0.018000000000000002%float ∧
  PrimFloat.eqb (PrimFloat.sub 0.018000000000000002%float 0.016%float) dt
  = false.
Proof. repeat split; vm_refl. Qed.

(** C2, as stated, fails: the spacing of [t_train] is not [dt] at index 8,
    where [t_train[9] - t_train[8]] is [0.0020000000000000018]. *)
Lemma time_vectors_not_exactly_uniform :
  ¬ (invariant t_train ∧ invariant t_test).
Proof.
  intros [[_ Huniform] _].
  destruct gap_at_8 as (H8 & H9 & Hgap).
  specialize (Huniform 8 _ _ H8 H9). congruence.
Qed.

(** C2, amended: each time vector the notebook builds, [np.arange(0, 10,
    dt)] and [np.arange(0, 15, dt)], has strictly increasing timestamps;
    its entry [i] is the binary64 product [i * dt], so that the spacing
    [t[i+1] - t[i]] is [dt] up to rounding: it differs from [dt] by at
    most [2^-49]. *)
Theorem time_vectors_increasing_nearly_uniform (stop : float) t :
  stop = 10%float ∨ stop = 15%float →
  np_arange 0%float stop dt = Some t →
  strictly_increasing t ∧ spaced_within tol dt t ∧ rounded_grid dt t.
Proof.
  intros Hstop Ht.
  assert (t = t_train ∨ t = t_test) as Hcases.
  { destruct Hstop as [-> | ->].
    - left. rewrite arange_train in Ht. by simplify_eq.
    - right. rewrite arange_test in Ht. by simplify_eq. }
  destruct increasing_checked as [Hi1 Hi2].
  destruct within_checked as [Hw1 Hw2].
  destruct grid_checked as [Hg1 Hg2].
  destruct Hcases as [-> | ->]; repeat split.
  - intros i a b. apply (adjacent_spec _ _ Hi1).
  - intros i a b. apply (adjacent_spec _ _ Hw1).
  - intros i a Ha. apply (indexed_spec _ _ _ Hg1 i a Ha).
  - intros i a b. apply (adjacent_spec _ _ Hi2).
  - intros i a b. apply (adjacent_spec _ _ Hw2).
  - intros i a Ha. apply (indexed_spec _ _ _ Hg2 i a Ha).
Qed.

Lemma time_vectors_increasing_nearly_uniform_witness :
  np_arange 0%float 10%float dt = Some t_train ∧
  strictly_increasing t_train ∧ spaced_within tol dt t_train ∧
  rounded_grid dt t_train.
Proof.
  split; [exact arange_train|].
  apply (time_vectors_increasing_nearly_uniform 10%float t_train).
  - left. reflexivity.
  - exact arange_train.
Defined.

End TimeVectors.

(* ===================================================================== *)
(** * The construction of the models *)
(* ===================================================================== *)

(** Reduce the tests on names in a hypothesis or in the goal, and nothing
    else. *)
Ltac names_in H :=
  cbv [String.eqb Ascii.eqb Bool.eqb andb orb negb inb existsb] in H.
Ltac names :=
  cbv [String.eqb Ascii.eqb Bool.eqb andb orb negb inb existsb].

Module Models.

(** A call that constructs a model: [ps.SINDy(...)], or the call of the
    parent's [__init__] that [SINDyCV(...)] makes.  The result is the
    class and the keywords the model is configured with. *)
Definition construction (op : libop) : option (string * dict) :=
  match op with
  | Call (Fn name) _ kw =>
      if String.eqb name "ps.SINDy" then Some ("SINDy"%string, kw) else None
  | Call (Super cls _ meth) _ kw =>
      if String.eqb cls "SINDyCV" && String.eqb meth "__init__"
      then Some ("SINDyCV"%string, kw) else None
  | _ => None
  end.

(** C4 as stated: every construction passes [t_default = dt]. *)
Definition all_pass_dt (tr : list entry) : Prop :=
  ∀ i e cls kw,
    tr !! i = Some e → construction (e_op e) = Some (cls, kw) →
    dict_get "t_default" kw = Some (PyFloat Numeric.dt).

(** What the notebook does: [ps.SINDy] is always given [t_default=dt];
    [SINDyCV()], in cell 6, is given nothing, and its parent is
    initialised with the defaults, [t_default=1] among them. *)
Definition configured (c : nat) (op : libop) : Prop :=
  ∀ cls kw,
    construction op = Some (cls, kw) →
    (cls = "SINDy"%string ∧
     dict_get "t_default" kw = Some (PyFloat Numeric.dt))
    ∨ (cls = "SINDyCV"%string ∧ c = 6 ∧ kw = SINDyCV.init_defaults ∧
       dict_get "t_default" kw = Some (PyInt 1)).

Lemma notebook_configured :
  inv (λ _, configured) 0 [] Notebook.notebook.
Proof.
  as_tree Notebook.notebook.
  walk_inv ltac:(
    intros cls kw Hc; cbv [construction] in Hc; names_in Hc;
    first [ discriminate Hc
          | injection Hc as <- <-; first [ left; by repeat split
                                        | right; by repeat split ] ]).
Qed.

(** The call that initialises the [SINDyCV] model in a run against the
    example library. *)
Definition sindycv_init : entry :=
  Entry 6 (Call (Super "SINDyCV" (PyObj 17) "__init__") []
                SINDyCV.init_defaults)
        (Ok PyNone).

Lemma toy_sindycv_init :
  trace (run Toy.library Notebook.notebook 0 0) !! 35 = Some sindycv_init.
Proof. vm_refl. Qed.

(** C4, as stated, fails: the model of cell 6 is constructed by
    [SINDyCV()], and its [t_default] is [1], not [dt]. *)
Lemma sindycv_not_given_dt :
  ¬ (∀ W (h : handler W) (w : W),
       all_pass_dt (trace (run h Notebook.notebook 0 w))).
Proof.
  intros Hall.
  specialize (Hall nat Toy.library 0 35 sindycv_init "SINDyCV"%string
                   SINDyCV.init_defaults toy_sindycv_init eq_refl).
  discriminate Hall.
Qed.

(** C4, amended: every [ps.SINDy] model the notebook constructs is given
    [t_default = dt] at its construction, alongside its optimizer or
    differentiation method; the [SINDyCV] model of cell 6 is constructed
    without arguments, so that its [t_default] is the default, [1]. *)
Theorem models_configured_at_construction
    {W} (h : handler W) (w : W) i e cls kw :
  trace (run h Notebook.notebook 0 w) !! i = Some e →
  construction (e_op e) = Some (cls, kw) →
  (cls = "SINDy"%string ∧
   dict_get "t_default" kw = Some (PyFloat Numeric.dt))
  ∨ (cls = "SINDyCV"%string ∧ e_cell e = 6 ∧ kw = SINDyCV.init_defaults ∧
     dict_get "t_default" kw = Some (PyInt 1)).
Proof.
  intros Hi Hc.
  exact (inv_run _ _ notebook_configured h w i e Hi cls kw Hc).
Qed.

Lemma models_configured_at_construction_witness :
  trace (run Toy.library Notebook.notebook 0 0) !! 35 = Some sindycv_init ∧
  (("SINDyCV"%string = "SINDy"%string ∧
    dict_get "t_default" SINDyCV.init_defaults
    = Some (PyFloat Numeric.dt))
   ∨ ("SINDyCV"%string = "SINDyCV"%string ∧ e_cell sindycv_init = 6 ∧
      SINDyCV.init_defaults = SINDyCV.init_defaults ∧
      dict_get "t_default" SINDyCV.init_defaults = Some (PyInt 1))).
Proof.
  split; [exact toy_sindycv_init|].
  apply (models_configured_at_construction Toy.library 0 35 sindycv_init).
  - exact toy_sindycv_init.
  - reflexivity.
Defined.

End Models.

(* ===================================================================== *)
(** * The wrapper [SINDyCV] delegates *)
(* ===================================================================== *)

Module Delegation.

(** A run that consists of one library call and returns what the library
    answered: the value or the exception, and the state it left. *)
Definition single {W} (h : handler W) (op : libop) (c : nat) (w : W)
  : result W pyval :=
  let '(r, w') := h op w in Result [Entry c op r] r c w'.

Lemma run_lib_single {W} (h : handler W) op c w :
  run h (lib op) c w = single h op c w.
Proof.
  unfold lib, single. cbn [run]. by destruct (h op w) as [[v|x] w'].
Qed.

Lemma inb_dict_get name (d : dict) :
  inb name d.*1 = false ↔ dict_get name d = None.
Proof.
  unfold inb. induction d as [|[k v] d IH]; cbn; [done|].
  rewrite (String.eqb_sym name k).
  destruct (String.eqb k name); cbn; [|exact IH].
  split; intros ?; discriminate.
Qed.

(** No explicit keyword is repeated: the call gets them all, the explicit
    ones first. *)
Lemma keywords_fresh (explicit star : dict) :
  Forall (λ k, dict_get k star = None) explicit.*1 →
  keywords explicit star = Ok (explicit ++ star).
Proof.
  intros Hfresh. unfold keywords.
  replace (existsb (λ k, inb k star.*1) explicit.*1) with false; [done|].
  symmetry. induction Hfresh as [|k ks Hk _ IH]; cbn; [done|].
  apply inb_dict_get in Hk. by rewrite Hk.
Qed.

Lemma keywords_repeated k v (star : dict) :
  is_Some (dict_get k star) →
  ∃ x, keywords [(k, v)] star = Raise x ∧ exn_class x = "TypeError"%string.
Proof.
  intros Hk. unfold keywords. cbn.
  destruct (inb k star.*1) eqn:Hin.
  - cbn. by eexists.
  - apply inb_dict_get in Hin. rewrite Hin in Hk. by destruct Hk.
Qed.

Lemma run_fit {W} (h : handler W) c w self x y (kwargs : dict) :
  dict_get "x_dot" kwargs = None →
  run h (SINDyCV.fit self x y kwargs) c w
  = single h (Call (Super "SINDyCV" self "fit") [x] (("x_dot", y) :: kwargs))
           c w.
Proof.
  intros Hfresh. unfold SINDyCV.fit.
  rewrite (keywords_fresh [("x_dot", y)] kwargs) by (by repeat constructor).
  cbn [lift bind app]. apply run_lib_single.
Qed.

Lemma run_score {W} (h : handler W) c w self x y t u mt metric
    (metric_kws : dict) :
  Forall (λ k, dict_get k metric_kws = None)
         (SINDyCV.score_keywords y t u mt metric).*1 →
  run h (SINDyCV.score self x y t u mt metric metric_kws) c w
  = single h (Call (Super "SINDyCV" self "score") [x]
                   (SINDyCV.score_keywords y t u mt metric ++ metric_kws))
           c w.
Proof.
  intros Hfresh. unfold SINDyCV.score.
  rewrite (keywords_fresh _ _ Hfresh).
  cbn [lift bind]. apply run_lib_single.
Qed.

(** C3: [SINDyCV] computes nothing of its own.  [fit(x, y, **kwargs)] is
    one call, the parent's [fit(x, x_dot=y, **kwargs)], and returns what
    that call returns; [score(x, y, t, u, multiple_trajectories, metric,
    **metric_kws)] is one call, the parent's [score] with [x_dot=y] and the
    same remaining arguments; a caller that gives no [metric] gets
    [r2_score] (and [t=None], [u=None], [multiple_trajectories=False]), and
    one that gives a metric has it passed on.  When [kwargs] itself holds
    [x_dot], the call expression raises Python's [TypeError] and the
    parent is not called. *)
Theorem SINDyCV_delegates_to_parent {W} (h : handler W) c w self x y :
  (∀ kwargs : dict,
     dict_get "x_dot" kwargs = None →
     run h (SINDyCV.fit self x y kwargs) c w
     = single h (Call (Super "SINDyCV" self "fit") [x]
                      (("x_dot", y) :: kwargs)) c w)
  ∧ (∀ kwargs : dict,
       is_Some (dict_get "x_dot" kwargs) →
       ∃ e, run h (SINDyCV.fit self x y kwargs) c w = Result [] (Raise e) c w
            ∧ exn_class e = "TypeError"%string)
  ∧ (∀ t u mt metric (metric_kws : dict),
       Forall (λ k, dict_get k metric_kws = None)
              ["x_dot"; "t"; "u"; "multiple_trajectories"; "metric"]%string →
       run h (SINDyCV.score self x y t u mt metric metric_kws) c w
       = single h (Call (Super "SINDyCV" self "score") [x]
                        ([("x_dot", y); ("t", t); ("u", u);
                          ("multiple_trajectories", mt); ("metric", metric)]
                         ++ metric_kws)) c w)
  ∧ run h (SINDyCV.call_score self [x; y] []) c w
    = run h (SINDyCV.score self x y PyNone PyNone (PyBool false)
                           (PyName "r2_score") []) c w
  ∧ (∀ metric,
       run h (SINDyCV.call_score self [x; y] [("metric", metric)]) c w
       = run h (SINDyCV.score self x y PyNone PyNone (PyBool false)
                              metric []) c w)
  ∧ run h (SINDyCV.call_fit self [x; y] []) c w
    = run h (SINDyCV.fit self x y []) c w.
Proof.
  repeat split.
  - intros kwargs. apply run_fit.
  - intros kwargs Hk.
    destruct (keywords_repeated "x_dot" y kwargs Hk) as (e & He & Hclass).
    exists e. split; [|done]. unfold SINDyCV.fit. by rewrite He.
  - intros t u mt metric metric_kws. apply run_score.
Qed.

Lemma SINDyCV_delegates_to_parent_witness :
  dict_get "x_dot" [("quiet", PyBool true)] = None ∧
  run Toy.library
      (SINDyCV.fit (PyObj 0) (PyInt 1) (PyInt 2) [("quiet", PyBool true)]) 6 1
  = single Toy.library
           (Call (Super "SINDyCV" (PyObj 0) "fit") [PyInt 1]
                 [("x_dot", PyInt 2); ("quiet", PyBool true)]) 6 1.
Proof.
  split; [reflexivity|].
  apply (SINDyCV_delegates_to_parent Toy.library 6 1 (PyObj 0) (PyInt 1)
                                     (PyInt 2)).
  reflexivity.
Defined.

End Delegation.

(* ===================================================================== *)
(** * Warnings and exceptions *)
(* ===================================================================== *)

(** Walk the tree of a program for a postcondition: [at_raise] closes the
    obligation where a call raises, [at_end] the one at the end. *)
Ltac walk_wp at_raise at_end :=
  repeat lazymatch goal with
    | |- wp _ _ _ (InCell _ _) => apply wp_cell
    | |- wp _ _ _ (Ret _) => apply wp_ret; at_end
    | |- wp _ _ _ (Throw _) => apply wp_throw; at_raise
    | |- wp _ _ _ (Lib _ _) =>
        apply wp_lib; [intros ?; cbn [app]; at_raise
                      | intros ?; cbn [app bind]]
    | |- wp _ _ _ ?p =>
        lazymatch p with
        | context [attr_T ?y] =>
            destruct (Calls.attr_T_cases y) as [(? & -> & ->) | ->];
            cbn [bind getattr lib]
        | context [if ?b then _ else _] => destruct b; cbn [bind]
        end
    end.

Ltac walk_try_free :=
  repeat lazymatch goal with
    | |- try_free (InCell _ _) => apply try_free_cell
    | |- try_free (Ret _) => apply try_free_ret
    | |- try_free (Throw _) => apply try_free_throw
    | |- try_free (Lib _ _) => apply try_free_lib; intros ?; cbn [bind]
    | |- try_free ?p =>
        lazymatch p with
        | context [attr_T ?y] =>
            destruct (Calls.attr_T_cases y) as [(? & -> & ->) | ->];
            cbn [bind getattr lib]
        | context [if ?b then _ else _] => destruct b; cbn [bind]
        end
    end.

(** The notebook has no [try]. *)
Lemma notebook_try_free : try_free Notebook.notebook.
Proof. as_tree Notebook.notebook. walk_try_free. Qed.

Module Failures.

(** What the notebook does about failures goes through the module
    [warnings]: a call is failure-related when it is a call of a function
    of that module. *)
Definition failure_related (op : libop) : bool :=
  match op with
  | Call (Fn name) _ _ => String.prefix "warnings." name
  | _ => false
  end.

(** [warnings.filterwarnings("ignore", category=...)]. *)
Definition ignore (category : string) : libop :=
  Call (Fn "warnings.filterwarnings") [PyStr "ignore"]
       [("category", PyName category)].

Definition only_ignores (c : nat) (op : libop) : Prop :=
  failure_related op = true →
  c = 1 ∧ (op = ignore "UserWarning" ∨ op = ignore "FutureWarning").

Definition ok_ops (tr : list entry) : list libop := e_op <$> tr.

Lemma notebook_only_ignores : inv (λ _, only_ignores) 0 [] Notebook.notebook.
Proof.
  as_tree Notebook.notebook.
  walk_inv ltac:(
    intros Hf; cbv [failure_related String.prefix] in Hf; names_in Hf;
    first [ discriminate Hf | split; [reflexivity | (by left) || (by right)] ]).
Qed.

Lemma notebook_two_filters :
  wp (λ tr (o : outcome unit),
        (∃ a, o = Ok a) →
        List.filter failure_related (ok_ops tr)
        = [ignore "UserWarning"; ignore "FutureWarning"])
     0 [] Notebook.notebook.
Proof.
  as_tree Notebook.notebook.
  walk_wp ltac:(by intros [? ?]) ltac:(intros _; vm_refl).
Qed.

(** C5: the only failure-related behaviour of the notebook is the two
    calls [warnings.filterwarnings("ignore", category=UserWarning)] and
    [... category=FutureWarning], made once, in the setup cell.  The
    notebook has no [try]: when a library call raises, no later call is
    made (no retry, no recovery) and the exception is the outcome of the
    run. *)
Theorem only_two_warning_filters_no_handling {W} (h : handler W) (w : W) :
  try_free Notebook.notebook
  ∧ (∀ i e x,
       trace (run h Notebook.notebook 0 w) !! i = Some e →
       e_res e = Raise x →
       S i = length (trace (run h Notebook.notebook 0 w)) ∧
       out (run h Notebook.notebook 0 w) = Raise x)
  ∧ (∀ i e,
       trace (run h Notebook.notebook 0 w) !! i = Some e →
       failure_related (e_op e) = true →
       e_cell e = 1 ∧
       (e_op e = ignore "UserWarning" ∨ e_op e = ignore "FutureWarning"))
  ∧ (completes (run h Notebook.notebook 0 w) →
     List.filter failure_related (ok_ops (trace (run h Notebook.notebook 0 w)))
     = [ignore "UserWarning"; ignore "FutureWarning"]).
Proof.
  split; [exact notebook_try_free|]. split; [|split].
  - intros i e x. apply (try_free_raise_final _ notebook_try_free).
  - intros i e Hi Hf.
    exact (inv_run _ _ notebook_only_ignores h w i e Hi Hf).
  - intros Hdone. exact (wp_sound _ _ _ _ notebook_two_filters h w Hdone).
Qed.

(** A library that fails: [solve_ivp] raises, everything else is as in
    the example library. *)
Definition failing_solver : handler nat := λ op w,
  match op with
  | Call (Fn "solve_ivp") _ _ => (Raise (Exn "RuntimeError" "LSODA failed"), w)
  | _ => Toy.library op w
  end.

Lemma only_two_warning_filters_no_handling_witness :
  (∃ e, trace (run failing_solver Notebook.notebook 0 0) !! 7 = Some e ∧
        e_res e = Raise (Exn "RuntimeError" "LSODA failed") ∧
        8 = length (trace (run failing_solver Notebook.notebook 0 0)) ∧
        out (run failing_solver Notebook.notebook 0 0)
        = Raise (Exn "RuntimeError" "LSODA failed"))
  ∧ (∃ e, trace (run Toy.library Notebook.notebook 0 0) !! 5 = Some e ∧
          failure_related (e_op e) = true ∧ e_cell e = 1 ∧
          (e_op e = ignore "UserWarning" ∨ e_op e = ignore "FutureWarning"))
  ∧ completes (run Toy.library Notebook.notebook 0 0)
  ∧ List.filter failure_related
                (ok_ops (trace (run Toy.library Notebook.notebook 0 0)))
    = [ignore "UserWarning"; ignore "FutureWarning"].
Proof.
  assert (Hrun : trace (run failing_solver Notebook.notebook 0 0) !! 7
                 = Some (Entry 2 Calls.solve_train
                               (Raise (Exn "RuntimeError" "LSODA failed"))))
    by vm_refl.
  assert (Hfilter : trace (run Toy.library Notebook.notebook 0 0) !! 5
                    = Some (Entry 1 (ignore "UserWarning") (Ok PyNone)))
    by vm_refl.
  assert (Hdone : completes (run Toy.library Notebook.notebook 0 0))
    by (exists (); vm_refl).
  destruct (only_two_warning_filters_no_handling failing_solver 0)
    as (_ & Hraise & _).
  destruct (only_two_warning_filters_no_handling Toy.library 0)
    as (_ & _ & Hwarn & Hall).
  split; [|split; [|split]].
  - eexists. split; [exact Hrun|]. split; [reflexivity|].
    exact (Hraise 7 _ _ Hrun eq_refl).
  - eexists. split; [exact Hfilter|]. split; [reflexivity|].
    exact (Hwarn 5 _ Hfilter eq_refl).
  - exact Hdone.
  - exact (Hall Hdone).
Defined.

End Failures.

(* ===================================================================== *)
(** * The trajectories *)
(* ===================================================================== *)

Module Trajectories.

(** What scipy documents of [sol = solve_ivp(fun, t_span, y0, t_eval=t,
    ...)] when the integration reaches the end of the span: [sol.y] is an
    array of shape [(len(y0), len(t))], the values of the solution at the
    times [t].  An integration that stops early returns fewer columns, and
    the notebook does not read [sol.status]. *)
Definition reached_end (y0 t_eval y : pyval) : Prop :=
  ∃ n m rows,
    pylen y0 = Some n ∧ pylen t_eval = Some m ∧
    y = PyArray (Mat n m rows) ∧ well_shaped (Mat n m rows).

(** The integrations of a run reached the end of their spans: where the
    trace has a completed [solve_ivp(f, span, y0, t_eval=t, ...)] followed
    by the read of [.y] of its result, what was read has that shape.  This
    is about the calls the run made, not about the library on other
    arguments. *)
Definition integrations_reach_end (tr : list entry) : Prop :=
  ∀ i e1 e2 f span y0 kw t sol y,
    tr !! i = Some e1 → tr !! S i = Some e2 →
    e_op e1 = Call (Fn "solve_ivp") [f; span; y0] kw → e_res e1 = Ok sol →
    dict_get "t_eval" kw = Some t →
    e_op e2 = GetAttr sol "y" → e_res e2 = Ok y →
    reached_end y0 t y.

(** [x] holds the solution [y] transposed: one state vector of dimension
    [n] for each entry of [t], row [j] of [x] being column [j] of [y]. *)
Definition trajectory (n : nat) (t : list float) (y : ndarray) (x : pyval)
  : Prop :=
  ∃ rows,
    x = PyArray (Mat (length t) n rows) ∧ pylen x = Some (length t) ∧
    length rows = length t ∧ Forall (λ r, length r = n) rows ∧
    ∀ i j, item (Mat (length t) n rows) j i = item y i j.

Lemma pylen_vec t m : pylen (PyArray (Vec t)) = Some m → m = length t.
Proof. cbv [pylen]. congruence. Qed.

Lemma pylen_ivec t m : pylen (PyArray (IVec t)) = Some m → m = length t.
Proof. cbv [pylen]. congruence. Qed.

Lemma pylen_list t m : pylen (PyList t) = Some m → m = length t.
Proof. cbv [pylen]. congruence. Qed.

Lemma Ok_inj {A} (a b : A) : Ok a = Ok b → a = b.
Proof. congruence. Qed.

Lemma columns_shape n m rows :
  length rows = n → Forall (λ r : list float, length r = m) rows →
  length (columns m rows) = m ∧
  Forall (λ c, length c = n) (columns m rows).
Proof.
  revert n. induction rows as [|r rows IH]; intros n Hn Hrows.
  - cbn in *. subst n. rewrite length_replicate. split; [done|].
    by apply Forall_replicate.
  - apply Forall_cons in Hrows as [Hr Hrows].
    destruct (IH (length rows) eq_refl Hrows) as [Hlen Hcols].
    cbn in Hn. subst n. unfold columns in *. cbn [foldr].
    split.
    + rewrite length_zip_with. lia.
    + apply Forall_lookup. intros i c Hc.
      apply lookup_zip_with_Some in Hc as (a & c' & -> & _ & Hc').
      cbn. f_equal. by apply (Forall_lookup_1 _ _ _ _ Hcols Hc').
Qed.

(** Entry [i] of column [j] is entry [j] of row [i]. *)
Lemma columns_item m rows i j :
  Forall (λ r : list float, length r = m) rows →
  (c ← columns m rows !! j; c !! i) = (r ← rows !! i; r !! j).
Proof.
  intros Hrows. revert i.
  induction Hrows as [|r rows Hr Hrows IH]; intros i.
  - cbn. destruct (replicate m [] !! j) as [c|] eqn:Hc; cbn.
    + apply lookup_replicate in Hc as [-> _]. done.
    + done.
  - unfold columns in *. cbn [foldr]. rewrite lookup_zip_with.
    destruct (r !! j) as [a|] eqn:Ha; cbn.
    + destruct (foldr (zip_with cons) (replicate m []) rows !! j)
        as [c|] eqn:Hc; cbn.
      * destruct i as [|i]; cbn; [by rewrite Ha|].
        exact (IH i).
      * exfalso. apply lookup_ge_None in Hc.
        apply lookup_lt_Some in Ha.
        destruct (columns_shape (length rows) m rows eq_refl Hrows)
          as [Hlen _].
        unfold columns in Hlen. lia.
    + destruct i as [|i]; cbn; [by rewrite Ha|].
      apply lookup_ge_None in Ha.
      destruct (rows !! i) as [r'|] eqn:Hr'; cbn; [|done].
      symmetry. apply lookup_ge_None.
      rewrite Forall_lookup in Hrows. rewrite (Hrows i r' Hr'). lia.
Qed.

Lemma transpose_trajectory n (t : list float) rows :
  well_shaped (Mat n (length t) rows) →
  trajectory n t (Mat n (length t) rows)
             (PyArray (transpose (Mat n (length t) rows))).
Proof.
  intros [Hn Hrows].
  destruct (columns_shape n (length t) rows Hn Hrows) as [Hl Hc].
  exists (columns (length t) rows).
  split; [reflexivity|]. split; [reflexivity|].
  split; [exact Hl|]. split; [exact Hc|].
  intros i j. cbn [item]. by apply columns_item.
Qed.

Definition solve_train : libop :=
  Call (Fn "solve_ivp")
       [PyName "lorenz";
        PyTuple [PyFloat 0%float; PyFloat 9.9979999999999993%float];
        PyList [PyInt (-8); PyInt 8; PyInt 27]]
       [("t_eval", PyArray (Vec Numeric.t_train));
        ("rtol", PyFloat 1e-15%float); ("method", PyStr "LSODA");
        ("atol", PyFloat 1e-10%float)].

Definition solve_test : libop :=
  Call (Fn "solve_ivp")
       [PyName "lorenz";
        PyTuple [PyFloat 0%float; PyFloat 14.998000000000001%float];
        PyArray (IVec [8; 7; 15]%Z)]
       [("t_eval", PyArray (Vec Numeric.t_test));
        ("rtol", PyFloat 1e-15%float); ("method", PyStr "LSODA");
        ("atol", PyFloat 1e-10%float)].

(** C6: each trajectory is one call of [solve_ivp] on the Lorenz system
    from a single initial condition, evaluated at its time vector:
    [x_train] from [[-8, 8, 27]] at [t_train], [x_test] from [[8, 7, 15]]
    at [t_test].  [x_train] and [x_test] are the transposes of the
    solutions: row [j] of [x_train] is column [j] of [sol.y], entry by
    entry.  So, in a run whose two integrations reached the end of their
    spans, each holds exactly one state vector of dimension 3 per
    timestamp: [len(x_train) = len(t_train)], [len(x_test) =
    len(t_test)]. *)
Theorem trajectories_one_state_per_timestamp
    {W} (h : handler W) (w : W) c d :
  integrations_reach_end
    (trace (run h (Notebook.generate_data Calls.integrator_keywords) c w)) →
  out (run h (Notebook.generate_data Calls.integrator_keywords) c w) = Ok d →
  ∃ sol_train y_train sol_test y_test x_test,
    trace (run h (Notebook.generate_data Calls.integrator_keywords) c w)
    = [Entry c solve_train (Ok sol_train);
       Entry c (GetAttr sol_train "y") (Ok (PyArray y_train));
       Entry c solve_test (Ok sol_test);
       Entry c (GetAttr sol_test "y") (Ok (PyArray y_test))]
    ∧ Notebook.t_train d = Numeric.t_train
    ∧ Notebook.t_test d = Numeric.t_test
    ∧ Notebook.x_test d = Some x_test
    ∧ trajectory 3 (Notebook.t_train d) y_train (Notebook.x_train d)
    ∧ trajectory 3 (Notebook.t_test d) y_test x_test.
Proof.
  unfold Notebook.generate_data.
  rewrite Calls.generate_data_with_tree.
  cbn [bind lib getattr].
  change Calls.solve_train with solve_train.
  change (Calls.solve_test Notebook.x0_test_array) with solve_test.
  destruct (h solve_train w) as [[sol1|x1] w1] eqn:H1.
  2:{ rewrite (run_lib_raise _ _ _ _ _ _ _ H1). intros _. discriminate. }
  rewrite (run_lib_ok _ _ _ _ _ _ _ H1), out_after, trace_after.
  destruct (h (GetAttr sol1 "y") w1) as [[y1|x2] w2] eqn:H2.
  2:{ rewrite (run_lib_raise _ _ _ _ _ _ _ H2). intros _. discriminate. }
  rewrite (run_lib_ok _ _ _ _ _ _ _ H2), out_after, trace_after.
  intros Hreach.
  assert (reached_end (PyList [PyInt (-8); PyInt 8; PyInt 27])
                      (PyArray (Vec Numeric.t_train)) y1) as Hy1.
  { eapply (Hreach 0); reflexivity. }
  destruct Hy1 as (n1 & m1 & rows1 & Hn1 & Hm1 & -> & Hwf1).
  apply pylen_list in Hn1. apply pylen_vec in Hm1. subst n1 m1.
  revert Hreach. cbn [attr_T bind].
  destruct (h solve_test w2) as [[sol2|x3] w3] eqn:H3.
  2:{ rewrite (run_lib_raise _ _ _ _ _ _ _ H3). intros _. discriminate. }
  rewrite (run_lib_ok _ _ _ _ _ _ _ H3), out_after, trace_after.
  destruct (h (GetAttr sol2 "y") w3) as [[y2|x4] w4] eqn:H4.
  2:{ rewrite (run_lib_raise _ _ _ _ _ _ _ H4). intros _. discriminate. }
  rewrite (run_lib_ok _ _ _ _ _ _ _ H4), out_after, trace_after.
  intros Hreach.
  assert (reached_end (PyArray (IVec [8; 7; 15]%Z))
                      (PyArray (Vec Numeric.t_test)) y2) as Hy2.
  { eapply (Hreach 2); reflexivity. }
  destruct Hy2 as (n2 & m2 & rows2 & Hn2 & Hm2 & -> & Hwf2).
  apply pylen_ivec in Hn2. apply pylen_vec in Hm2. subst n2 m2.
  clear Hreach.
  cbn [attr_T bind run out trace app].
  intros Hd. apply Ok_inj in Hd. subst d.
  eexists _, _, _, _, _. split; [reflexivity|].
  cbn [Calls.data_of Notebook.t_train Notebook.t_test Notebook.x_train
       Notebook.x_test].
  split; [reflexivity|]. split; [reflexivity|]. split; [reflexivity|].
  split; by apply transpose_trajectory.
Qed.

(** The run of cell 2 against the example library, whose [solve_ivp]
    answers with the array itself. *)
Definition toy_trace : list entry :=
  [Entry 2 solve_train (Ok (Toy.zeros 3 5000));
   Entry 2 (GetAttr (Toy.zeros 3 5000) "y") (Ok (Toy.zeros 3 5000));
   Entry 2 solve_test (Ok (Toy.zeros 3 7500));
   Entry 2 (GetAttr (Toy.zeros 3 7500) "y") (Ok (Toy.zeros 3 7500))].

(** What cell 2 binds in a run against the example library. *)
Definition toy_data : Notebook.data :=
  Calls.data_of Notebook.x0_test_array
    (PyArray (transpose (Mat 3 5000 (replicate 3 (replicate 5000 0%float)))))
    (Some (PyArray
             (transpose (Mat 3 7500 (replicate 3 (replicate 7500 0%float)))))).

Lemma toy_reached_end (y0 : pyval) (t : list float) n m :
  pylen y0 = Some n → length t = m →
  reached_end y0 (PyArray (Vec t)) (Toy.zeros n m).
Proof.
  intros Hn Hm. exists n, m, (replicate n (replicate m 0%float)).
  split; [exact Hn|]. split; [cbv [pylen]; by f_equal|].
  split; [reflexivity|]. split.
  - by rewrite length_replicate.
  - apply Forall_replicate. by rewrite length_replicate.
Qed.

Lemma toy_integrations_reach_end : integrations_reach_end toy_trace.
Proof.
  intros i e1 e2 f span y0 kw t sol y Hi HSi Hop1 Hres1 Ht Hop2 Hres2.
  unfold toy_trace in Hi, HSi.
  destruct i as [|[|[|[|i]]]]; cbn [lookup list_lookup] in Hi, HSi;
    try discriminate HSi;
    apply (inj Some) in Hi; apply (inj Some) in HSi; subst e1 e2;
    cbv [e_op e_res] in Hop1, Hres1, Hop2, Hres2;
    try discriminate Hop1.
  - cbv [solve_train] in Hop1. injection Hop1 as <- <- <- <-.
    apply (inj Some) in Ht. subst t.
    apply Ok_inj in Hres2. subst y.
    apply toy_reached_end; [reflexivity|exact Grids.length_t_train].
  - cbv [solve_test] in Hop1. injection Hop1 as <- <- <- <-.
    apply (inj Some) in Ht. subst t.
    apply Ok_inj in Hres2. subst y.
    apply toy_reached_end; [reflexivity|exact Grids.length_t_test].
Qed.

Lemma toy_run :
  trace (run Toy.library (Notebook.generate_data Calls.integrator_keywords)
             2 0) = toy_trace
  ∧ out (run Toy.library (Notebook.generate_data Calls.integrator_keywords)
             2 0) = Ok toy_data.
Proof. split; vm_refl. Qed.

Lemma trajectories_one_state_per_timestamp_witness :
  integrations_reach_end
    (trace (run Toy.library
                (Notebook.generate_data Calls.integrator_keywords) 2 0)) ∧
  out (run Toy.library (Notebook.generate_data Calls.integrator_keywords) 2 0)
  = Ok toy_data ∧
  ∃ y_train,
    trajectory 3 (Notebook.t_train toy_data) y_train
               (Notebook.x_train toy_data).
Proof.
  destruct toy_run as [Htrace Hout].
  assert (integrations_reach_end
            (trace (run Toy.library
                        (Notebook.generate_data Calls.integrator_keywords)
                        2 0))) as Hreach
    by (rewrite Htrace; exact toy_integrations_reach_end).
  split; [exact Hreach|]. split; [exact Hout|].
  destruct (trajectories_one_state_per_timestamp
              Toy.library 0 2 toy_data Hreach Hout)
    as (_ & y_train & _ & _ & _ & _ & _ & _ & _ & Htrain & _).
  by exists y_train.
Defined.

End Trajectories.

(* ===================================================================== *)
(** * The order of the operations *)
(* ===================================================================== *)

Module Order.

(** (a) A call that generates a trajectory. *)
Definition generates (op : libop) : bool :=
  match op with
  | Call (Fn name) _ _ => String.eqb name "solve_ivp"
  | _ => false
  end.

Definition returned (e : entry) : bool :=
  match e_res e with Ok _ => true | Raise _ => false end.

(** (b) The model a completed construction yields: what [ps.SINDy(...)]
    returned, or the instance the parent's [__init__] initialised. *)
Definition constructs_model (e : entry) : option pyval :=
  match e_op e, e_res e with
  | Call (Fn name) _ _, Ok m =>
      if String.eqb name "ps.SINDy" then Some m else None
  | Call (Super cls self meth) _ _, Ok _ =>
      if String.eqb cls "SINDyCV" && String.eqb meth "__init__"
      then Some self else None
  | _, _ => None
  end.

(** (c) The search a completed [GridSearchCV(...)] yields, the model a
    call hands to a search, and the object whose [fit] a call runs. *)
Definition constructs_search (e : entry) : option pyval :=
  match e_op e, e_res e with
  | Call (Fn name) _ _, Ok s =>
      if String.eqb name "GridSearchCV" then Some s else None
  | _, _ => None
  end.

Definition hands_to_search (op : libop) : option pyval :=
  match op with
  | Call (Fn name) (m :: _) _ =>
      if String.eqb name "GridSearchCV" then Some m else None
  | _ => None
  end.

Definition fits (op : libop) : option pyval :=
  match op with
  | Call (Method obj name) _ _ =>
      if String.eqb name "fit" then Some obj else None
  | _ => None
  end.

Definition fitted (e : entry) : bool :=
  match fits (e_op e) with Some _ => returned e | None => false end.

(** (d) A call that prints what was found: [print(...)] or [model.print()]. *)
Definition prints (op : libop) : bool :=
  match op with
  | Call (Fn name) _ _ => String.eqb name "print"
  | Call (Method _ name) _ _ => String.eqb name "print"
  | _ => false
  end.

(** What each call of the notebook finds in the calls before it. *)
Definition in_order (hist : list entry) (c : nat) (op : libop) : Prop :=
  (generates op = true →
   Forall (λ e, Models.construction (e_op e) = None) hist)
  ∧ (is_Some (Models.construction op) →
     Exists (λ e, generates (e_op e) = true ∧ returned e = true) hist)
  ∧ (∀ m, hands_to_search op = Some m →
          Exists (λ e, e_cell e = c ∧ constructs_model e = Some m) hist)
  ∧ (∀ obj, fits op = Some obj →
            Exists (λ e, e_cell e = c ∧
                         (constructs_model e = Some obj
                          ∨ constructs_search e = Some obj)) hist)
  ∧ (prints op = true →
     Exists (λ e, e_cell e = c ∧ fitted e = true) hist).

Ltac none_before :=
  repeat (apply List.Forall_cons; [reflexivity|]); apply List.Forall_nil.

Ltac found_before :=
  repeat first
    [ apply Exists_cons_hd;
      solve [ split; [reflexivity | first [ reflexivity | left; reflexivity
                                          | right; reflexivity ] ] ]
    | apply Exists_cons_tl ].

Ltac check_in_order :=
  split; [|split; [|split; [|split]]];
  [ intros Hg; cbv [generates] in Hg; names_in Hg;
    first [discriminate Hg | none_before]
  | intros Hc; cbv [Models.construction] in Hc; names_in Hc;
    first [by destruct Hc | found_before]
  | intros m Hm; cbv [hands_to_search] in Hm; names_in Hm;
    first [discriminate Hm | injection Hm as <-; found_before]
  | intros obj Ho; cbv [fits] in Ho; names_in Ho;
    first [discriminate Ho | injection Ho as <-; found_before]
  | intros Hp; cbv [prints] in Hp; names_in Hp;
    first [discriminate Hp | found_before] ].

Lemma notebook_in_order : inv in_order 0 [] Notebook.notebook.
Proof.
  as_tree Notebook.notebook.
  walk_inv check_in_order.
Qed.

Lemma exists_before {P : entry → Prop} (tr : list entry) j :
  Exists P (take j tr) → ∃ i e, i < j ∧ tr !! i = Some e ∧ P e.
Proof.
  intros (e & Hin & HP)%Exists_exists.
  apply list_elem_of_lookup in Hin as [i Hi].
  apply lookup_take_Some in Hi as [Hi Hlt]. by exists i, e.
Qed.

Lemma generates_not_construction op :
  generates op = true → Models.construction op = None.
Proof.
  destruct op as [| |[name| |] args kw|]; try done.
  cbn. intros ->%String.eqb_eq. reflexivity.
Qed.

(** C7: the operations occur in the order (a), (b), (c), (d).  In every
    run, (a) each call that generates a trajectory comes before each
    construction of a model, and a trajectory has been generated when a
    model is constructed; (b, c) a model handed to [GridSearchCV] was
    constructed before, in the same cell, and an object whose [fit] is
    called was constructed before, in the same cell; (d) each call that
    prints comes after a [fit] of the same cell that has returned. *)
Theorem data_models_search_print_in_order {W} (h : handler W) (w : W) :
  let tr := trace (run h Notebook.notebook 0 w) in
  (∀ i j ei ej,
     tr !! i = Some ei → tr !! j = Some ej →
     generates (e_op ei) = true → is_Some (Models.construction (e_op ej)) →
     i < j)
  ∧ (∀ j ej,
       tr !! j = Some ej → is_Some (Models.construction (e_op ej)) →
       ∃ i ei, i < j ∧ tr !! i = Some ei ∧
               generates (e_op ei) = true ∧ returned ei = true)
  ∧ (∀ j ej m,
       tr !! j = Some ej → hands_to_search (e_op ej) = Some m →
       ∃ i ei, i < j ∧ tr !! i = Some ei ∧
               e_cell ei = e_cell ej ∧ constructs_model ei = Some m)
  ∧ (∀ j ej obj,
       tr !! j = Some ej → fits (e_op ej) = Some obj →
       ∃ i ei, i < j ∧ tr !! i = Some ei ∧ e_cell ei = e_cell ej ∧
               (constructs_model ei = Some obj
                ∨ constructs_search ei = Some obj))
  ∧ (∀ j ej,
       tr !! j = Some ej → prints (e_op ej) = true →
       ∃ i ei, i < j ∧ tr !! i = Some ei ∧
               e_cell ei = e_cell ej ∧ fitted ei = true).
Proof.
  intros tr. pose proof (inv_run _ _ notebook_in_order h w) as Hobeys.
  fold tr in Hobeys. repeat split.
  - intros i j ei ej Hi Hj Hg Hc.
    destruct (Hobeys i ei Hi) as (Hnone & _).
    specialize (Hnone Hg).
    destruct (decide (i < j)) as [|Hge]; [done|exfalso].
    destruct (decide (j = i)) as [->|Hne].
    + simplify_eq. rewrite (generates_not_construction _ Hg) in Hc.
      by destruct Hc.
    + assert (take i tr !! j = Some ej) as Hin
        by (apply lookup_take_Some; split; [done|lia]).
      rewrite Forall_lookup in Hnone. rewrite (Hnone j ej Hin) in Hc.
      by destruct Hc.
  - intros j ej Hj Hc.
    destruct (Hobeys j ej Hj) as (_ & Hgen & _).
    destruct (exists_before _ _ (Hgen Hc)) as (i & ei & ? & ? & ? & ?).
    by exists i, ei.
  - intros j ej m Hj Hm.
    destruct (Hobeys j ej Hj) as (_ & _ & Hmodel & _).
    destruct (exists_before _ _ (Hmodel m Hm)) as (i & ei & ? & ? & ? & ?).
    by exists i, ei.
  - intros j ej obj Hj Ho.
    destruct (Hobeys j ej Hj) as (_ & _ & _ & Hobj & _).
    destruct (exists_before _ _ (Hobj obj Ho)) as (i & ei & ? & ? & ? & ?).
    by exists i, ei.
  - intros j ej Hj Hp.
    destruct (Hobeys j ej Hj) as (_ & _ & _ & _ & Hfit).
    destruct (exists_before _ _ (Hfit Hp)) as (i & ei & ? & ? & ? & ?).
    by exists i, ei.
Qed.

(** In a run against the example library, call 20 is the [print] of cell
    3; the [fit] of the search, call 18, is before it. *)
Lemma data_models_search_print_in_order_witness :
  ∃ ej, trace (run Toy.library Notebook.notebook 0 0) !! 20 = Some ej ∧
        prints (e_op ej) = true ∧
        ∃ i ei, i < 20 ∧
                trace (run Toy.library Notebook.notebook 0 0) !! i = Some ei ∧
                e_cell ei = e_cell ej ∧ fitted ei = true.
Proof.
  assert (∃ ej, trace (run Toy.library Notebook.notebook 0 0) !! 20 = Some ej
                ∧ prints (e_op ej) = true) as (ej & Hj & Hp)
    by (eexists; split; [vm_compute; reflexivity | reflexivity]).
  exists ej. split; [exact Hj|]. split; [exact Hp|].
  destruct (data_models_search_print_in_order Toy.library 0)
    as (_ & _ & _ & _ & Hprint).
  exact (Hprint 20 ej Hj Hp).
Defined.

End Order.

(* ===================================================================== *)
(** * A straight line of calls *)
(* ===================================================================== *)

Module StraightLine.

(** What a call names, as text; an attribute read is not a call. *)
Definition called (op : libop) : option string :=
  match op with
  | Import module _ => Some ("import " +:+ module)
  | New cls => Some ("new " +:+ cls)
  | Call (Fn name) _ _ => Some name
  | Call (Method _ name) _ _ => Some ("." +:+ name)
  | Call (Super cls _ name) _ _ => Some ("super(" +:+ cls +:+ ")." +:+ name)
  | GetAttr _ _ => None
  end.

(** The sequence of the library calls of a run, each with its cell. *)
Definition calls (tr : list entry) : list (nat * string) :=
  omap (λ e, pair (e_cell e) <$> called (e_op e)) tr.

(** The calls of the notebook, in the order of the file. *)
Definition script : list (nat * string) :=
  [(1, "import numpy"); (1, "import scipy.integrate");
   (1, "import pysindy.utils"); (1, "import pysindy");
   (1, "import warnings"); (1, "warnings.filterwarnings");
   (1, "warnings.filterwarnings");
   (2, "solve_ivp"); (2, "solve_ivp");
   (3, "import sklearn.model_selection");
   (3, "import sklearn.model_selection");
   (3, "ps.SINDy"); (3, "ps.PolynomialLibrary"); (3, "ps.FourierLibrary");
   (3, "TimeSeriesSplit"); (3, "GridSearchCV"); (3, ".fit"); (3, "print");
   (3, ".print");
   (4, "ps.SINDyDerivative"); (4, "ps.SINDy"); (4, "TimeSeriesSplit");
   (4, "GridSearchCV"); (4, ".fit"); (4, "print"); (4, ".print");
   (5, "import sklearn.metrics");
   (6, "import sklearn.model_selection"); (6, "new SINDyCV");
   (6, "super(SINDyCV).__init__"); (6, ".differentiate");
   (6, "ShuffleSplit"); (6, "GridSearchCV"); (6, ".fit"); (6, "print");
   (6, ".print");
   (7, "import sklearn.linear_model"); (7, "ElasticNet"); (7, "ps.SINDy");
   (7, ".fit"); (7, ".print");
   (8, "import sklearn.linear_model"); (8, "OrthogonalMatchingPursuit");
   (8, "ps.SINDy"); (8, ".fit"); (8, ".print")]%string.

(** [needle] occurs in [s]. *)
Fixpoint occurs (needle s : string) : bool :=
  String.prefix needle s
  || match s with
     | EmptyString => false
     | String _ rest => occurs needle rest
     end.

(** Names that would mean threads, processes, scheduling, suspension,
    protocols, caches or locks. *)
Definition concurrency_words : list string :=
  ["thread"; "Thread"; "multiprocessing"; "Process"; "Pool"; "subprocess";
   "concurrent"; "asyncio"; "async"; "await"; "joblib"; "Parallel";
   "sched"; "sleep"; "Lock"; "Semaphore"; "Queue"; "socket"; "cache";
   "Cache"; "Memory"]%string.

Definition sequential (name : string) : bool :=
  forallb (λ word, negb (occurs word name)) concurrency_words.

(** Keywords that would make a library call run in parallel. *)
Definition parallel_keywords : list string :=
  ["n_jobs"; "pre_dispatch"; "workers"; "backend"]%string.

Definition asks_no_parallelism (c : nat) (op : libop) : Prop :=
  ∀ f args kw, op = Call f args kw →
               Forall (λ k, dict_get k kw = None) parallel_keywords.

Fixpoint is_prefix (l1 l2 : list (nat * string)) : bool :=
  match l1, l2 with
  | [], _ => true
  | x :: l1', y :: l2' =>
      Nat.eqb x.1 y.1 && String.eqb x.2 y.2 && is_prefix l1' l2'
  | _ :: _, [] => false
  end.

Lemma is_prefix_spec l1 l2 : is_prefix l1 l2 = true → l1 `prefix_of` l2.
Proof.
  revert l2. induction l1 as [|[c1 s1] l1 IH]; intros l2 H.
  - apply prefix_nil.
  - destruct l2 as [|[c2 s2] l2]; [done|]. cbn in H.
    apply andb_prop in H as [H Hrest]. apply andb_prop in H as [Hc Hs].
    apply Nat.eqb_eq in Hc. apply String.eqb_eq in Hs. subst.
    by apply prefix_cons, IH.
Qed.

Definition straight (tr : list entry) (o : outcome unit) : Prop :=
  calls tr `prefix_of` script ∧ ((∃ a, o = Ok a) → calls tr = script).

Lemma notebook_straight : wp straight 0 [] Notebook.notebook.
Proof.
  as_tree Notebook.notebook.
  walk_wp
    ltac:(split; [apply is_prefix_spec; vm_refl | by intros [? ?]])
    ltac:(split; [apply is_prefix_spec; vm_refl | intros _; vm_refl]).
Qed.

Lemma notebook_asks_no_parallelism :
  inv (λ _, asks_no_parallelism) 0 [] Notebook.notebook.
Proof.
  as_tree Notebook.notebook.
  walk_inv ltac:(
    intros f args kw Hop;
    first [ discriminate Hop
          | injection Hop as <- <- <-;
            repeat (apply List.Forall_cons; [reflexivity|]);
            apply List.Forall_nil ]).
Qed.

Lemma script_sequential : Forall (λ cn, sequential cn.2 = true) script.
Proof. unfold script. repeat (apply List.Forall_cons; [vm_refl|]). apply List.Forall_nil. Qed.

(** C8: the notebook is a straight-line, synchronous sequence of library
    calls.  It has no [try]; whatever the libraries answer, the calls of
    a run are the calls of [script], in that order, up to the first one
    that raises, and all of them in a run that completes: no branch, no
    loop, no call made twice.  No call of [script] names a thread, a
    process, a pool, a scheduler, a lock, a queue, a socket or a cache, and
    no call passes a keyword that asks a library for parallel work. *)
Theorem notebook_is_straight_line {W} (h : handler W) (w : W) :
  try_free Notebook.notebook
  ∧ calls (trace (run h Notebook.notebook 0 w)) `prefix_of` script
  ∧ (completes (run h Notebook.notebook 0 w) →
     calls (trace (run h Notebook.notebook 0 w)) = script)
  ∧ Forall (λ cn, sequential cn.2 = true) script
  ∧ (∀ i e f args kw,
       trace (run h Notebook.notebook 0 w) !! i = Some e →
       e_op e = Call f args kw →
       Forall (λ k, dict_get k kw = None) parallel_keywords).
Proof.
  destruct (wp_sound _ _ _ _ notebook_straight h w) as [Hprefix Hall].
  split; [exact notebook_try_free|].
  split; [exact Hprefix|]. split; [exact Hall|].
  split; [exact script_sequential|].
  intros i e f args kw Hi Hop.
  exact (inv_run _ _ notebook_asks_no_parallelism h w i e Hi f args kw Hop).
Qed.

Lemma notebook_is_straight_line_witness :
  completes (run Toy.library Notebook.notebook 0 0) ∧
  calls (trace (run Toy.library Notebook.notebook 0 0)) = script.
Proof.
  assert (Hdone : completes (run Toy.library Notebook.notebook 0 0))
    by (exists (); vm_refl).
  split; [exact Hdone|].
  destruct (notebook_is_straight_line Toy.library 0) as (_ & _ & Hall & _).
  exact (Hall Hdone).
Defined.

End StraightLine.

(* ===================================================================== *)
(** * The test trajectory is not read *)
(* ===================================================================== *)


Module Unused.
Import Notebook.

(** The two halves of cell 2: the computation of [x_train] and, for an
    initial condition [x0], the computation of [x_test]. *)
Definition train_part : prog pyval :=
  let* sol := lib Calls.solve_train in
  let* y := getattr sol "y" in
  attr_T y.

Definition test_part (x0 : pyval) : prog pyval :=
  let* sol := lib (Calls.solve_test x0) in
  let* y := getattr sol "y" in
  attr_T y.

(** A call of [solve_ivp] or the read of an attribute. *)
Definition integrates_or_reads (op : libop) : Prop :=
  match op with
  | Call (Fn name) _ _ => name = "solve_ivp"%string
  | GetAttr _ _ => True
  | _ => False
  end.

(** The library integrates and reads attributes without changing the
    state the later calls see. *)
Definition side_effect_free {W} (h : handler W) : Prop :=
  ∀ op w, integrates_or_reads op → (h op w).2 = w.

(** The calls of a run that are not of cell [n]. *)
Definition outside (n : nat) (tr : list entry) : list entry :=
  List.filter (λ e, negb (Nat.eqb (e_cell e) n)) tr.

(** The calls of a run that print: [print(...)] and [model.print()]. *)
Definition printed (tr : list entry) : list entry :=
  List.filter (λ e, Order.prints (e_op e)) tr.

(** A program of one cell, without [try], whose calls all satisfy [P]. *)
Inductive only (P : libop → Prop) : ∀ {A}, prog A → Prop :=
  | only_ret {A} (a : A) : only P (Ret a)
  | only_throw {A} e : only P (@Throw A e)
  | only_lib {A} op (k : pyval → prog A) :
      P op → (∀ v, only P (k v)) → only P (Lib op k).

Lemma only_bind P {A B} (p : prog A) (f : A → prog B) :
  only P p → (∀ a, only P (f a)) → only P (bind p f).
Proof.
  intros Hp Hf. induction Hp as [A a|A e|A op k Hop _ IH]; cbn [bind].
  - apply Hf.
  - constructor.
  - constructor; [done|]. intros v. by apply IH.
Qed.

Lemma only_attr_T P v : (∀ o n, P (GetAttr o n)) → only P (attr_T v).
Proof.
  intros HP. destruct v; cbn; try (constructor; [apply HP|constructor]).
  constructor.
Qed.

Lemma only_train_part : only integrates_or_reads train_part.
Proof.
  unfold train_part. cbn [bind lib getattr].
  constructor; [done|]. intros sol. constructor; [done|]. intros y.
  by apply only_attr_T.
Qed.

Lemma only_test_part x0 : only integrates_or_reads (test_part x0).
Proof.
  unfold test_part. cbn [bind lib getattr].
  constructor; [done|]. intros sol. constructor; [done|]. intros y.
  by apply only_attr_T.
Qed.

Lemma only_setup : only (λ _, True) setup.
Proof.
  rewrite Calls.setup_tree. cbn [bind import call lib].
  repeat (constructor; [done|intros ?]). constructor.
Qed.

Section Runs.
Context {W : Type} (h : handler W).

Lemma only_cell P {A} (p : prog A) c w :
  only P p →
  cell (run h p c w) = c ∧ Forall (λ e, e_cell e = c) (trace (run h p c w)).
Proof.
  intros Hp. revert w. induction Hp as [A a|A e|A op k _ _ IH]; intros w.
  - by split.
  - by split.
  - cbn [run]. destruct (h op w) as [[v|x] w'].
    + destruct (IH v w') as [Hc Htr]. split; [done|].
      rewrite trace_after. by constructor.
    + split; [done|]. by repeat constructor.
Qed.

Lemma only_ops P {A} (p : prog A) c w :
  only P p → Forall (λ e, P (e_op e)) (trace (run h p c w)).
Proof.
  intros Hp. revert w. induction Hp as [A a|A e|A op k Hop _ IH]; intros w.
  - constructor.
  - constructor.
  - cbn [run]. destruct (h op w) as [[v|x] w'].
    + rewrite trace_after. constructor; [done|apply IH].
    + by repeat constructor.
Qed.

Lemma only_world P {A} (p : prog A) c w :
  only P p → (∀ op w, P op → (h op w).2 = w) → world (run h p c w) = w.
Proof.
  intros Hp Hpure. revert w.
  induction Hp as [A a|A e|A op k Hop _ IH]; intros w; [done..|].
  cbn [run]. pose proof (Hpure op w Hop) as Hw.
  destruct (h op w) as [[v|x] w']; cbn in Hw; subst w'.
  - rewrite world_after. apply IH.
  - done.
Qed.

Lemma outside_app n tr1 tr2 :
  outside n (tr1 ++ tr2) = outside n tr1 ++ outside n tr2.
Proof. apply List.filter_app. Qed.

Lemma outside_same n tr :
  Forall (λ e, e_cell e = n) tr → outside n tr = [].
Proof.
  unfold outside. induction 1 as [|e tr He _ IH]; [done|]. cbn.
  rewrite He, Nat.eqb_refl. exact IH.
Qed.

Lemma outside_other n m tr :
  m ≠ n → Forall (λ e, e_cell e = m) tr → outside n tr = tr.
Proof.
  intros Hne. unfold outside. induction 1 as [|e tr He _ IH]; [done|]. cbn.
  rewrite He. destruct (Nat.eqb_spec m n); [done|]. cbn. by rewrite IH.
Qed.

Lemma printed_none tr :
  Forall (λ e, integrates_or_reads (e_op e)) tr → printed tr = [].
Proof.
  unfold printed. induction 1 as [|e tr He _ IH]; [done|]. cbn.
  rewrite IH. destruct (e_op e) as [| |[name| |] args kw|]; try done.
  cbn in He. by subst name.
Qed.

Lemma printed_app tr1 tr2 : printed (tr1 ++ tr2) = printed tr1 ++ printed tr2.
Proof. apply List.filter_app. Qed.

(** Cell 2 broken into its halves. *)
Definition generate_halves (x0 : pyval) (b : bool) : prog data :=
  let* x_train := train_part in
  if b then
    let* x_test := test_part x0 in
    Ret (Calls.data_of x0 x_train (Some x_test))
  else Ret (Calls.data_of x0 x_train None).

Lemma data_cells_halves x0 b :
  data_cells x0 b =
  let* _ := InCell 1 setup in InCell 2 (generate_halves x0 b).
Proof. vm_refl. Qed.

(** What a complete run of cells 1 and 2 leaves: the calls of cell 1,
    the state cell 1 left, and a training trajectory that is what
    [train_part] returns in that state, whatever [x0] is and whether
    [x_test] is computed or not. *)
Lemma data_cells_complete x0 w :
  side_effect_free h →
  completes (run h (data_cells x0 true) 0 w) →
  ∃ x_train x_test,
    out (run h train_part 2 (world (run h setup 1 w))) = Ok x_train ∧
    ∀ b,
      out (run h (data_cells x0 b) 0 w)
      = Ok (Calls.data_of x0 x_train (if b then Some x_test else None))
      ∧ world (run h (data_cells x0 b) 0 w) = world (run h setup 1 w)
      ∧ cell (run h (data_cells x0 b) 0 w) = 2
      ∧ outside 2 (trace (run h (data_cells x0 b) 0 w))
        = trace (run h setup 1 w)
      ∧ printed (trace (run h (data_cells x0 b) 0 w))
        = printed (trace (run h setup 1 w)).
Proof.
  intros Hpure [d Hd]. rewrite data_cells_halves in Hd.
  rewrite run_bind in Hd. unfold then_run in Hd. cbn [run] in Hd.
  destruct (only_cell _ setup 1 w only_setup) as [Hc1 Htr1].
  destruct (out (run h setup 1 w)) as [ik|e] eqn:Hik; [|discriminate].
  rewrite out_after in Hd. cbn [run] in Hd.
  set (w1 := world (run h setup 1 w)) in *.
  unfold generate_halves in Hd.
  rewrite run_bind in Hd. unfold then_run in Hd.
  destruct (only_cell _ train_part 2 w1 only_train_part) as [Hc2 Htr2].
  pose proof (only_ops _ train_part 2 w1 only_train_part) as Hops2.
  pose proof (only_world _ train_part 2 w1 only_train_part Hpure) as Hw2.
  destruct (out (run h train_part 2 w1)) as [x_train|e] eqn:Hx; [|discriminate].
  rewrite out_after in Hd. rewrite Hc2, Hw2 in Hd.
  rewrite run_bind in Hd. unfold then_run in Hd.
  destruct (only_cell _ (test_part x0) 2 w1 (only_test_part x0))
    as [Hc3 Htr3].
  pose proof (only_ops _ (test_part x0) 2 w1 (only_test_part x0)) as Hops3.
  pose proof (only_world _ (test_part x0) 2 w1 (only_test_part x0) Hpure)
    as Hw3.
  destruct (out (run h (test_part x0) 2 w1)) as [x_test|e] eqn:Hxt;
    [|discriminate].
  exists x_train, x_test. split; [done|]. intros b.
  rewrite data_cells_halves.
  rewrite run_bind. unfold then_run. cbn [run]. rewrite Hik.
  rewrite out_after, world_after, trace_after. cbn [cell after run].
  fold w1. unfold generate_halves. rewrite run_bind. unfold then_run.
  rewrite Hx.
  rewrite out_after, world_after, trace_after. cbn [cell after].
  rewrite Hc2, Hw2.
  destruct b.
  - rewrite run_bind. unfold then_run. rewrite Hxt.
    cbn [run out world cell trace after]. rewrite Hw3, app_nil_r.
    repeat split; try done.
    + rewrite !outside_app, (outside_other 2 1) by done.
      by rewrite !outside_same, !app_nil_r.
    + rewrite !printed_app, (printed_none _ Hops2), (printed_none _ Hops3).
      by rewrite !app_nil_r.
  - cbn [run out world cell trace after].
    rewrite app_nil_r. repeat split; try done.
    + rewrite !outside_app, (outside_other 2 1) by done.
      by rewrite !outside_same, !app_nil_r.
    + rewrite !printed_app, (printed_none _ Hops2). by rewrite !app_nil_r.
Qed.

(** The later cells read [dt], [t_train] and [x_train] only. *)
Lemma experiments_ignore_test x0 x0' x_train x_test x_test' :
  experiments (Calls.data_of x0 x_train x_test)
  = experiments (Calls.data_of x0' x_train x_test').
Proof. reflexivity. Qed.

Lemma notebook_after_data x0 b w x_train x_test :
  out (run h (data_cells x0 b) 0 w) = Ok (Calls.data_of x0 x_train x_test) →
  run h (notebook_with x0 b) 0 w
  = after (trace (run h (data_cells x0 b) 0 w))
          (run h (experiments (Calls.data_of PyNone x_train None))
               (cell (run h (data_cells x0 b) 0 w))
               (world (run h (data_cells x0 b) 0 w))).
Proof.
  intros Hd. unfold notebook_with. rewrite run_bind. unfold then_run.
  rewrite Hd. by rewrite (experiments_ignore_test x0 PyNone _ x_test None).
Qed.

End Runs.

(** C9: the test trajectory is computed and never consumed.  Take two runs
    of the notebook that differ in the value of [x0_test] only, and a
    third that leaves the computation of [x_test] out, against a library
    for which integrating and reading an attribute leave the state alone;
    when the cell that computes [x_test] completes in the first two, the
    three runs make the same calls outside that cell, with the same
    answers, print the same, and end with the same outcome in the same
    state. *)
Theorem test_trajectory_never_consumed
    {W} (h : handler W) (w : W) (x0a x0b : pyval) :
  side_effect_free h →
  completes (run h (data_cells x0a true) 0 w) →
  completes (run h (data_cells x0b true) 0 w) →
  (outside 2 (trace (run h (notebook_with x0a true) 0 w))
   = outside 2 (trace (run h (notebook_with x0b true) 0 w))
   ∧ printed (trace (run h (notebook_with x0a true) 0 w))
     = printed (trace (run h (notebook_with x0b true) 0 w))
   ∧ out (run h (notebook_with x0a true) 0 w)
     = out (run h (notebook_with x0b true) 0 w)
   ∧ world (run h (notebook_with x0a true) 0 w)
     = world (run h (notebook_with x0b true) 0 w))
  ∧ (outside 2 (trace (run h (notebook_with x0a true) 0 w))
     = outside 2 (trace (run h (notebook_with x0a false) 0 w))
     ∧ printed (trace (run h (notebook_with x0a true) 0 w))
       = printed (trace (run h (notebook_with x0a false) 0 w))
     ∧ out (run h (notebook_with x0a true) 0 w)
       = out (run h (notebook_with x0a false) 0 w)
     ∧ world (run h (notebook_with x0a true) 0 w)
       = world (run h (notebook_with x0a false) 0 w)).
Proof.
  intros Hpure Ha Hb.
  destruct (data_cells_complete h x0a w Hpure Ha) as (xa & ta & Hxa & HA).
  destruct (data_cells_complete h x0b w Hpure Hb) as (xb & tb & Hxb & HB).
  assert (xa = xb) as <- by congruence.
  destruct (HA true) as (Hda & Hwa & Hca & Hoa & Hpa).
  destruct (HB true) as (Hdb & Hwb & Hcb & Hob & Hpb).
  destruct (HA false) as (Hdc & Hwc & Hcc & Hoc & Hpc).
  rewrite (notebook_after_data h x0a true w _ _ Hda).
  rewrite (notebook_after_data h x0b true w _ _ Hdb).
  rewrite (notebook_after_data h x0a false w _ _ Hdc).
  rewrite !out_after, !world_after, !trace_after, !outside_app, !printed_app.
  rewrite Hwa, Hwb, Hwc, Hca, Hcb, Hcc, Hoa, Hob, Hoc, Hpa, Hpb, Hpc.
  done.
Qed.

Lemma toy_side_effect_free : side_effect_free Toy.library.
Proof.
  intros op w Hop. destruct op as [| |[name| |] args kw|]; try done.
  cbn in Hop. subst name. reflexivity.
Qed.

(** Two runs against the example library, from [[8, 7, 15]] and from
    [[1, 2, 3]]. *)
Lemma test_trajectory_never_consumed_witness :
  side_effect_free Toy.library ∧
  completes (run Toy.library (data_cells x0_test_array true) 0 0) ∧
  completes (run Toy.library
                 (data_cells (PyArray (IVec [1; 2; 3]%Z)) true) 0 0) ∧
  printed (trace (run Toy.library (notebook_with x0_test_array true) 0 0))
  = printed (trace (run Toy.library
                        (notebook_with (PyArray (IVec [1; 2; 3]%Z)) true)
                        0 0)).
Proof.
  assert (Ha : completes (run Toy.library (data_cells x0_test_array true)
                              0 0))
    by (exists Trajectories.toy_data; vm_refl).
  assert (Hb : completes (run Toy.library
                              (data_cells (PyArray (IVec [1; 2; 3]%Z)) true)
                              0 0))
    by (exists (Calls.data_of (PyArray (IVec [1; 2; 3]%Z))
                              (x_train Trajectories.toy_data)
                              (x_test Trajectories.toy_data)); vm_refl).
  split; [exact toy_side_effect_free|]. split; [exact Ha|].
  split; [exact Hb|].
  destruct (test_trajectory_never_consumed
              Toy.library 0 x0_test_array (PyArray (IVec [1; 2; 3]%Z))
              toy_side_effect_free Ha Hb) as ((_ & Hprinted & _) & _).
  exact Hprinted.
Defined.

End Unused.

(* ===================================================================== *)
(** * Derivatives computed before the search *)
(* ===================================================================== *)

Module Precomputed.
Import Notebook.









(** ** What a search does with a fold

    scikit-learn is not part of the repository.  What it documents of
    [GridSearchCV(estimator, grid, cv=cv).fit(X, y)]: for each candidate of
    the grid and each pair of index arrays [(train, test)] that
    [cv.split(X, y)] yields, a clone of the estimator is fitted on the rows
    [X[train]], [y[train]] and scored on the rows [X[test]], [y[test]],
    through its own [fit] and [score]; afterwards the best candidate is
    fitted on the whole of [X] and [y].  Here the estimator is a
    [SINDyCV], so that [fit] and [score] are the methods of the notebook's
    class, and the indices of a [ShuffleSplit] are in no order. *)
Record fold : Type := Fold { train_rows : list nat; test_rows : list nat }.













(** An example: a trajectory of two states, and a library whose
    [differentiate] answers with an array of the same shape. *)
Definition two_states : data :=
  Data 0.002%float [0; 0.002]%float
       (PyTuple [PyFloat 0%float; PyFloat 0.002%float])
       (PyList [PyInt (-8); PyInt 8; PyInt 27])
       (PyArray (Mat 2 3 [[1; 2; 3]; [4; 5; 6]]%float))
       [] (PyTuple []) PyNone None.

Definition two_derivatives : pyval :=
  PyArray (Mat 2 3 [[10; 20; 30]; [40; 50; 60]]%float).


Definition example_fit : entry :=
  Entry 6 (Call (Method (PyObj 4) "fit") [x_train two_states]
                [("y", two_derivatives)])
        (Ok PyNone).


End Precomputed.

(* ===================================================================== *)
(** * What the runs are given *)
(* ===================================================================== *)

Module Reproducibility.
Import Notebook.

(** The splitter of cell 6 is [ShuffleSplit(n_splits=3, test_size=0.25)]:
    no [random_state] is passed, so its shuffles draw from the state of
    NumPy's global generator. *)
Definition unseeded_splitter (c : nat) (op : libop) : Prop :=
  ∀ args kw, op = Call (Fn "ShuffleSplit") args kw →
             args = [] ∧ dict_get "random_state" kw = None ∧
             kw = [("n_splits", PyInt 3); ("test_size", PyFloat 0.25%float)].

Lemma shuffle_split_unseeded d :
  inv (λ _, unseeded_splitter) 6 [] (cv_shuffle_split d).
Proof.
  unfold cv_shuffle_split. rewrite Calls.new_default_tree.
  cbn [bind import call lib getattr].
  walk_inv ltac:(
    intros args kw Hop;
    first [discriminate Hop | injection Hop as <- <-; by repeat split]).
Qed.

(** The tolerances of the integrator are constants of the file. *)
Lemma integrator_tolerances :
  dict_get "rtol" Calls.integrator_keywords = Some (PyFloat 1e-15%float) ∧
  dict_get "atol" Calls.integrator_keywords = Some (PyFloat 1e-10%float) ∧
  dict_get "method" Calls.integrator_keywords = Some (PyStr "LSODA").
Proof. by repeat split. Qed.

(** A run is a function of the library and of the state it starts in:
    what two runs of the same source can differ in is that state, the
    state of the random generator included. *)
Lemma same_start_same_run {W} (h : handler W) (w w' : W) :
  w = w' → run h notebook 0 w = run h notebook 0 w'.
Proof. by intros ->. Qed.

End Reproducibility.

(* ===================================================================== *)
(** * The methods of [SINDyCV] as a caller reaches them *)
(* ===================================================================== *)

Module Binding.

(** ** Dictionaries *)

Lemma dict_get_app name (d1 d2 : dict) :
  dict_get name (d1 ++ d2)
  = match dict_get name d1 with
    | Some v => Some v
    | None => dict_get name d2
    end.
Proof.
  induction d1 as [|[k v] d1 IH]; cbn; [done|].
  by destruct (String.eqb k name).
Qed.

(** A filter on the keys keeps the item of a key it accepts and has none
    for a key it refuses. *)
Lemma dict_get_filter (keep : string → bool) name (d : dict) :
  dict_get name (List.filter (λ kv : string * pyval, keep kv.1) d)
  = if keep name then dict_get name d else None.
Proof.
  induction d as [|[k v] d IH]; cbn; [by destruct (keep name)|].
  destruct (String.eqb k name) eqn:Hk.
  - apply String.eqb_eq in Hk. subst k.
    destruct (keep name); cbn; [by rewrite String.eqb_refl|].
    rewrite IH. done.
  - destruct (keep k); cbn; [rewrite Hk|]; exact IH.
Qed.

Lemma inb_true name (names : list string) :
  inb name names = true ↔ name ∈ names.
Proof.
  unfold inb. rewrite existsb_exists. split.
  - intros (k & Hin & Hk). apply String.eqb_eq in Hk. subst k.
    by apply list_elem_of_In.
  - intros Hin. exists name. split; [by apply list_elem_of_In|].
    apply String.eqb_refl.
Qed.

(** No key of [d] is among [names]. *)
Lemma keys_apart (names : list string) (d : dict) :
  Forall (λ name, dict_get name d = None) names →
  Forall (λ kv : string * pyval, inb kv.1 names = false) d.
Proof.
  intros Hnames. induction d as [|[k v] d IH]; [constructor|].
  constructor.
  - cbn. destruct (inb k names) eqn:Hin; [|done].
    apply inb_true in Hin. rewrite Forall_forall in Hnames.
    specialize (Hnames k Hin). cbn in Hnames.
    by rewrite String.eqb_refl in Hnames.
  - apply IH. eapply Forall_impl; [exact Hnames|].
    intros name Hname. cbn in Hname.
    by destruct (String.eqb k name).
Qed.

Lemma filter_none {A} (f : A → bool) (l : list A) :
  Forall (λ a, f a = false) l → List.filter f l = [].
Proof. induction 1 as [|a l Ha _ IH]; cbn; [done|]. by rewrite Ha. Qed.

Lemma filter_all {A} (f : A → bool) (l : list A) :
  Forall (λ a, f a = true) l → List.filter f l = l.
Proof. induction 1 as [|a l Ha _ IH]; cbn; [done|]. by rewrite Ha, IH. Qed.

Lemma existsb_none {A} (f : A → bool) (l : list A) :
  Forall (λ a, f a = false) l → existsb f l = false.
Proof. induction 1 as [|a l Ha _ IH]; cbn; [done|]. by rewrite Ha. Qed.

Lemma Forall_filter {A} (P : A → Prop) (f : A → bool) (l : list A) :
  Forall P l → Forall P (List.filter f l).
Proof.
  induction 1 as [|a l Ha _ IH]; cbn; [constructor|].
  destruct (f a); [by constructor|done].
Qed.

(** ** When the binding of a call succeeds

    The call gives no more positional arguments than there are
    parameters, no keyword repeats a parameter given by position, every
    keyword names a parameter unless the function takes [**rest], and
    every parameter gets a value.  Then the parameters are bound to the
    positional arguments, the keywords that name them and the defaults, in
    that order of precedence, and [rest] is the other keywords in the
    order of the call. *)
Lemma is_Some_dict_get name (d : dict) :
  is_Some (dict_get name d) ↔ inb name d.*1 = true.
Proof.
  destruct (inb name d.*1) eqn:Hin.
  - split; [done|]. intros _.
    destruct (dict_get name d) eqn:Hd; [by eexists|].
    apply Delegation.inb_dict_get in Hd. congruence.
  - apply Delegation.inb_dict_get in Hin. rewrite Hin.
    split; [by intros [? ?]|done].
Qed.

Lemma keyword_error_none params positional var_keyword (kw : dict) :
  Forall (λ name, dict_get name kw = None) positional →
  var_keyword = true
  ∨ Forall (λ kv : string * pyval, inb kv.1 params = true) kw →
  keyword_error params positional var_keyword kw = None.
Proof.
  intros Hapart Hvar. apply keys_apart in Hapart.
  induction kw as [|[k v] kw IH]; [done|].
  apply Forall_cons in Hapart as [Hk Hapart]. cbn in Hk.
  cbn [keyword_error]. rewrite Hk.
  assert (keyword_error params positional var_keyword kw = None) as Hlater.
  { apply IH; [done|]. destruct Hvar as [?|Hnamed]; [by left|right].
    by apply Forall_cons in Hnamed as [_ ?]. }
  destruct (inb k params) eqn:Hin; [done|].
  destruct Hvar as [-> | Hnamed]; [done|].
  apply Forall_cons in Hnamed as [Hnamed _]. cbn in Hnamed. congruence.
Qed.

Lemma bind_args_ok params defaults var_keyword args (kw : dict) :
  length args ≤ length params →
  Forall (λ name, dict_get name kw = None) (zip params args).*1 →
  var_keyword = true
  ∨ Forall (λ kv : string * pyval, inb kv.1 params = true) kw →
  Forall (λ p, is_Some
                 (dict_get p
                    (zip params args
                     ++ List.filter (λ kv : string * pyval, inb kv.1 params) kw
                     ++ defaults))) params →
  bind_args params defaults var_keyword args kw
  = Ok (zip params args
        ++ List.filter (λ kv : string * pyval, inb kv.1 params) kw
        ++ defaults,
        List.filter (λ kv : string * pyval, negb (inb kv.1 params)) kw).
Proof.
  intros Hlen Hapart Hvar Hall. unfold bind_args.
  rewrite keyword_error_none by done.
  replace (length params <? length args) with false
    by (symmetry; apply Nat.ltb_ge; lia).
  replace (forallb _ params) with true; [done|].
  symmetry. apply forallb_forall. intros p Hp.
  apply is_Some_dict_get. rewrite Forall_forall in Hall.
  apply Hall. by apply list_elem_of_In.
Qed.

(** What a binding that succeeds returns. *)
Lemma bind_args_inv params defaults var_keyword args (kw : dict) b :
  bind_args params defaults var_keyword args kw = Ok b →
  b = (zip params args
       ++ List.filter (λ kv : string * pyval, inb kv.1 params) kw
       ++ defaults,
       List.filter (λ kv : string * pyval, negb (inb kv.1 params)) kw)
  ∧ keyword_error params (zip params args).*1 var_keyword kw = None
  ∧ length args ≤ length params
  ∧ Forall (λ p, is_Some (dict_get p b.1)) params.
Proof.
  unfold bind_args.
  destruct (keyword_error _ _ _ _) eqn:Hkw; [done|].
  destruct (length params <? length args) eqn:Hlen; [done|].
  destruct (forallb _ params) eqn:Hall; [|done].
  intros [= <-]. split; [done|]. split; [done|].
  split; [by apply Nat.ltb_ge in Hlen|]. cbn [fst].
  apply Forall_forall. intros p Hp. rewrite forallb_forall in Hall.
  apply list_elem_of_In in Hp. specialize (Hall p Hp).
  by apply is_Some_dict_get.
Qed.

(** Whatever goes wrong in the binding of a call is a [TypeError]. *)
Lemma keyword_error_type_error params positional var_keyword (kw : dict) e :
  keyword_error params positional var_keyword kw = Some e →
  exn_class e = "TypeError"%string.
Proof.
  induction kw as [|[k v] kw IH]; cbn [keyword_error]; [done|].
  destruct (inb k params); [destruct (inb k positional)|destruct var_keyword];
    first [ exact IH | by intros [= <-] ].
Qed.

Lemma bind_args_type_error params defaults var_keyword args (kw : dict) e :
  bind_args params defaults var_keyword args kw = Raise e →
  exn_class e = "TypeError"%string.
Proof.
  unfold bind_args.
  destruct (keyword_error _ _ _ _) as [e'|] eqn:Hkw.
  - intros [= <-]. by eapply keyword_error_type_error.
  - intros H.
    repeat match type of H with
           | (if ?b then _ else _) = _ => destruct b
           end; by simplify_eq.
Qed.

Lemma dict_get_default_last name (d1 d2 d3 : dict) :
  is_Some (dict_get name d3) → is_Some (dict_get name (d1 ++ d2 ++ d3)).
Proof.
  intros H3. rewrite !dict_get_app.
  destruct (dict_get name d1); [by eexists|].
  destruct (dict_get name d2); [by eexists|]. exact H3.
Qed.

(** An outcome that is Python's [TypeError], raised before any call. *)
Definition type_error_before_call {W} (r : result W pyval) (c : nat) (w : W)
  : Prop :=
  ∃ e, r = Result [] (Raise e) c w ∧ exn_class e = "TypeError"%string.

Lemma run_lift_raise {W} (h : handler W) {A B} (e : exn) (f : A → prog B) c w :
  run h (let* a := lift (Raise e) in f a) c w = Result [] (Raise e) c w.
Proof. reflexivity. Qed.

(** ** [fit] and [score] need [y] *)

(** [model.fit(x)], the call the notebook makes on a [ps.SINDy] model, is a
    [TypeError] on a [SINDyCV] model whatever the keywords, as long as none
    of them is [y]: the wrapper has made [y] a required parameter.  The
    parent is not called. *)
Theorem fit_requires_y {W} (h : handler W) c w self x (kw : dict) :
  dict_get "y" kw = None →
  type_error_before_call (run h (SINDyCV.call_fit self [x] kw) c w) c w.
Proof.
  intros Hy. unfold SINDyCV.call_fit.
  destruct (bind_args _ _ _ _ _) as [b|e] eqn:Hb.
  - exfalso. apply bind_args_inv in Hb as (-> & _ & _ & Hall).
    apply Forall_cons in Hall as [_ Hall].
    apply Forall_cons in Hall as [_ Hall].
    apply Forall_cons in Hall as [[v Hv] _].
    cbn [fst zip zip_with dict_get app String.eqb Ascii.eqb Bool.eqb] in Hv.
    rewrite dict_get_app,
      (dict_get_filter (λ k, inb k ["self"; "x"; "y"]%string)) in Hv.
    cbn in Hv. by rewrite Hy in Hv.
  - rewrite run_lift_raise. exists e.
    split; [done|]. by eapply bind_args_type_error.
Qed.

Lemma fit_requires_y_witness :
  dict_get "y" [("quiet", PyBool true)] = None ∧
  type_error_before_call
    (run Toy.library (SINDyCV.call_fit (PyObj 0) [PyInt 1]
                                       [("quiet", PyBool true)]) 6 0) 6 0.
Proof.
  split; [reflexivity|].
  apply (fit_requires_y Toy.library 6 0 (PyObj 0) (PyInt 1)). reflexivity.
Defined.

(** [model.score(x)] likewise: [score] of the wrapper needs [y]. *)
Theorem score_requires_y {W} (h : handler W) c w self x (kw : dict) :
  dict_get "y" kw = None →
  type_error_before_call (run h (SINDyCV.call_score self [x] kw) c w) c w.
Proof.
  intros Hy. unfold SINDyCV.call_score.
  destruct (bind_args _ _ _ _ _) as [b|e] eqn:Hb.
  - exfalso. apply bind_args_inv in Hb as (-> & _ & _ & Hall).
    apply Forall_cons in Hall as [_ Hall].
    apply Forall_cons in Hall as [_ Hall].
    apply Forall_cons in Hall as [[v Hv] _].
    unfold SINDyCV.score_params in Hv.
    cbn [fst zip zip_with dict_get app String.eqb Ascii.eqb Bool.eqb] in Hv.
    rewrite dict_get_app in Hv.
    rewrite (dict_get_filter
               (λ k, inb k ["self"; "x"; "y"; "t"; "u";
                            "multiple_trajectories"; "metric"]%string))
      in Hv.
    cbn in Hv. by rewrite Hy in Hv.
  - rewrite run_lift_raise. exists e.
    split; [done|]. by eapply bind_args_type_error.
Qed.

Lemma score_requires_y_witness :
  dict_get "y" [("t", PyFloat 0.002%float)] = None ∧
  type_error_before_call
    (run Toy.library (SINDyCV.call_score (PyObj 0) [PyInt 1]
                                         [("t", PyFloat 0.002%float)]) 6 0)
    6 0.
Proof.
  split; [reflexivity|].
  apply (score_requires_y Toy.library 6 0 (PyObj 0) (PyInt 1)). reflexivity.
Defined.

(** ** What [fit] and [score] pass on *)

(** Keywords that do not name [self] are kept or refused by the
    parameters after [self] alone. *)
Lemma filter_after_self (keep : bool → bool) (params : list string)
    (kw : dict) :
  dict_get "self" kw = None →
  List.filter (λ kv : string * pyval,
                 keep (inb kv.1 ("self"%string :: params))) kw
  = List.filter (λ kv : string * pyval, keep (inb kv.1 params)) kw.
Proof.
  induction kw as [|[k v] kw IH]; intros Hself; [done|].
  cbn [dict_get] in Hself. destruct (String.eqb k "self") eqn:Hk; [done|].
  cbn [List.filter fst]. rewrite (IH Hself).
  replace (inb k ("self"%string :: params)) with (inb k params); [done|].
  unfold inb. cbn [existsb]. by rewrite Hk.
Qed.

(** [model.fit(x, y, **extra)]: every extra keyword goes to the parent's
    [fit] after [x_dot=y], unchanged and in the order of the call; the
    outcome is the parent's.  A keyword [self], [x] or [y] would repeat a
    parameter bound by position, and [x_dot] the keyword of the call on
    the parent: each is a [TypeError], and is excluded here. *)
Theorem fit_forwards_keywords {W} (h : handler W) c w self x y (kw : dict) :
  Forall (λ name, dict_get name kw = None)
         ["self"; "x"; "y"; "x_dot"]%string →
  run h (SINDyCV.call_fit self [x; y] kw) c w
  = Delegation.single h (Call (Super "SINDyCV" self "fit") [x]
                              (("x_dot", y) :: kw)) c w.
Proof.
  intros Hkw. apply Forall_cons in Hkw as [Hs Hkw].
  apply Forall_cons in Hkw as [Hx Hkw].
  apply Forall_cons in Hkw as [Hy Hkw]. apply Forall_cons in Hkw as [Hd _].
  assert (Forall (λ name, dict_get name kw = None)
                 ["self"; "x"; "y"]%string)
    as Hsxy by (by repeat constructor).
  unfold SINDyCV.call_fit. rewrite bind_args_ok.
  - rewrite (filter_none
               (λ kv : string * pyval, inb kv.1 ["self"; "x"; "y"]%string))
      by (by apply keys_apart).
    rewrite (filter_all
               (λ kv : string * pyval,
                  negb (inb kv.1 ["self"; "x"; "y"]%string))).
    2:{ eapply Forall_impl; [by apply keys_apart|]. by intros kv ->. }
    cbn [lift bind zip zip_with app fst snd dict_item dict_get String.eqb
         Ascii.eqb Bool.eqb default].
    by apply Delegation.run_fit.
  - cbn. lia.
  - exact Hsxy.
  - by left.
  - repeat constructor; by eexists.
Qed.

Lemma fit_forwards_keywords_witness :
  Forall (λ name, dict_get name [("quiet", PyBool true)] = None)
         ["self"; "x"; "y"; "x_dot"]%string ∧
  run Toy.library
      (SINDyCV.call_fit (PyObj 0) [PyInt 1; PyInt 2] [("quiet", PyBool true)])
      6 0
  = Delegation.single Toy.library
      (Call (Super "SINDyCV" (PyObj 0) "fit") [PyInt 1]
            [("x_dot", PyInt 2); ("quiet", PyBool true)]) 6 0.
Proof.
  assert (Forall (λ name, dict_get name [("quiet", PyBool true)] = None)
                 ["self"; "x"; "y"; "x_dot"]%string) as Hkw
    by (repeat constructor).
  split; [exact Hkw|].
  exact (fit_forwards_keywords Toy.library 6 0 (PyObj 0) (PyInt 1) (PyInt 2)
                               _ Hkw).
Defined.

(** The binding of [model.score(x, y, **kw)]. *)
Lemma bind_score self x y (kw : dict) :
  Forall (λ name, dict_get name kw = None) ["self"; "x"; "y"]%string →
  bind_args ("self" :: SINDyCV.score_params) SINDyCV.score_defaults true
            [self; x; y] kw
  = Ok ([("self"%string, self); ("x"%string, x); ("y"%string, y)]
        ++ List.filter (λ kv : string * pyval, inb kv.1 SINDyCV.score_params)
                       kw
        ++ SINDyCV.score_defaults,
        List.filter (λ kv : string * pyval,
                       negb (inb kv.1 SINDyCV.score_params)) kw).
Proof.
  intros Hsxy. rewrite bind_args_ok.
  - apply Forall_cons in Hsxy as [Hs _].
    rewrite (filter_after_self (λ b, b) _ _ Hs),
      (filter_after_self negb _ _ Hs). done.
  - cbn. lia.
  - exact Hsxy.
  - by left.
  - repeat constructor;
      first [ by eexists
            | apply (dict_get_default_last _ [_; _; _]); by eexists ].
Qed.

(** The value [score] gets for a parameter with a default: the keyword of
    the call when there is one, the default otherwise. *)
Lemma score_parameter name dflt self x y (kw : dict) :
  inb name SINDyCV.score_params = true →
  String.eqb "self" name = false →
  String.eqb "x" name = false → String.eqb "y" name = false →
  dict_get name SINDyCV.score_defaults = Some dflt →
  dict_item name
    ([("self"%string, self); ("x"%string, x); ("y"%string, y)]
     ++ List.filter (λ kv : string * pyval, inb kv.1 SINDyCV.score_params) kw
     ++ SINDyCV.score_defaults)
  = default dflt (dict_get name kw).
Proof.
  intros Hin Hs Hx Hy Hd. unfold dict_item. cbn [app dict_get].
  rewrite Hs, Hx, Hy, dict_get_app,
    (dict_get_filter (λ k, inb k SINDyCV.score_params)), Hin, Hd.
  by destruct (dict_get name kw).
Qed.

(** [model.score(x, y, **kw)]: the parent's [score] gets [x_dot=y], then
    [t], [u], [multiple_trajectories] and [metric], each from the keyword
    of the call or else from its default ([None], [None], [False],
    [r2_score]), then every other keyword of the call, in its order.  A
    keyword [self], [x], [y] or [x_dot] is a [TypeError], and is excluded
    here. *)
Theorem score_defaults_and_forwarding
    {W} (h : handler W) c w self x y (kw : dict) :
  Forall (λ name, dict_get name kw = None)
         ["self"; "x"; "y"; "x_dot"]%string →
  run h (SINDyCV.call_score self [x; y] kw) c w
  = Delegation.single h
      (Call (Super "SINDyCV" self "score") [x]
            ([("x_dot", y);
              ("t", default PyNone (dict_get "t" kw));
              ("u", default PyNone (dict_get "u" kw));
              ("multiple_trajectories",
               default (PyBool false) (dict_get "multiple_trajectories" kw));
              ("metric", default (PyName "r2_score") (dict_get "metric" kw))]
             ++ List.filter (λ kv : string * pyval,
                               negb (inb kv.1 SINDyCV.score_params)) kw))
      c w.
Proof.
  intros Hkw. apply Forall_cons in Hkw as [Hs Hkw].
  apply Forall_cons in Hkw as [Hx Hkw].
  apply Forall_cons in Hkw as [Hy Hkw]. apply Forall_cons in Hkw as [Hd _].
  unfold SINDyCV.call_score.
  rewrite bind_score by (by repeat constructor).
  cbn [lift bind fst snd].
  rewrite (score_parameter "t" PyNone), (score_parameter "u" PyNone),
    (score_parameter "multiple_trajectories" (PyBool false)),
    (score_parameter "metric" (PyName "r2_score")) by reflexivity.
  replace (dict_item "self" _) with self by reflexivity.
  replace (dict_item "x" _) with x by reflexivity.
  replace (dict_item "y" _) with y by reflexivity.
  rewrite Delegation.run_score; [reflexivity|].
  repeat constructor;
    rewrite (dict_get_filter (λ k, negb (inb k SINDyCV.score_params)));
    first [ exact Hd | reflexivity ].
Qed.

Lemma score_defaults_and_forwarding_witness :
  Forall (λ name, dict_get name [("sample_weight", PyInt 3)] = None)
         ["self"; "x"; "y"; "x_dot"]%string ∧
  run Toy.library
      (SINDyCV.call_score (PyObj 0) [PyInt 1; PyInt 2]
                          [("sample_weight", PyInt 3)]) 6 0
  = Delegation.single Toy.library
      (Call (Super "SINDyCV" (PyObj 0) "score") [PyInt 1]
            [("x_dot", PyInt 2); ("t", PyNone); ("u", PyNone);
             ("multiple_trajectories", PyBool false);
             ("metric", PyName "r2_score"); ("sample_weight", PyInt 3)])
      6 0.
Proof.
  assert (Forall (λ name, dict_get name [("sample_weight", PyInt 3)] = None)
                 ["self"; "x"; "y"; "x_dot"]%string) as Hkw
    by (repeat constructor).
  split; [exact Hkw|].
  exact (score_defaults_and_forwarding
           Toy.library 6 0 (PyObj 0) (PyInt 1) (PyInt 2) _ Hkw).
Defined.

(** [model.score(x, y, x_dot=...)] is a [TypeError]: [score] has no
    parameter [x_dot], the keyword lands in [**metric_kws] and repeats the
    [x_dot=y] of the call on the parent, which is not made.  A caller
    cannot give the wrapper derivatives other than [y]. *)
Theorem score_refuses_x_dot {W} (h : handler W) c w self x y (kw : dict) :
  Forall (λ name, dict_get name kw = None) ["x"; "y"]%string →
  is_Some (dict_get "x_dot" kw) →
  type_error_before_call (run h (SINDyCV.call_score self [x; y] kw) c w) c w.
Proof.
  intros Hxy Hd. unfold SINDyCV.call_score.
  destruct (bind_args _ _ _ _ _) as [b|e] eqn:Hb.
  - apply bind_args_inv in Hb as (-> & _ & _ & _).
    cbn [lift bind fst snd].
    unfold SINDyCV.score, keywords, SINDyCV.score_keywords.
    cbn [fmap list_fmap fst existsb].
    destruct (inb "x_dot" _) eqn:Hin.
    + cbn [orb]. rewrite run_lift_raise. eexists; split; reflexivity.
    + apply Delegation.inb_dict_get in Hin.
      rewrite (dict_get_filter
                 (λ k, negb (inb k ("self"%string :: SINDyCV.score_params))))
        in Hin.
      cbn in Hin. rewrite Hin in Hd. by destruct Hd.
  - rewrite run_lift_raise. exists e.
    split; [done|]. by eapply bind_args_type_error.
Qed.

Lemma score_refuses_x_dot_witness :
  Forall (λ name, dict_get name [("x_dot", PyInt 9)] = None)
         ["x"; "y"]%string ∧
  is_Some (dict_get "x_dot" [("x_dot", PyInt 9)]) ∧
  type_error_before_call
    (run Toy.library
         (SINDyCV.call_score (PyObj 0) [PyInt 1; PyInt 2]
                             [("x_dot", PyInt 9)]) 6 0) 6 0.
Proof.
  assert (Forall (λ name, dict_get name [("x_dot", PyInt 9)] = None)
                 ["x"; "y"]%string) as Hxy by (repeat constructor).
  assert (is_Some (dict_get "x_dot" [("x_dot", PyInt 9)])) as Hd
    by (by eexists).
  split; [exact Hxy|]. split; [exact Hd|].
  exact (score_refuses_x_dot Toy.library 6 0 (PyObj 0) (PyInt 1) (PyInt 2)
                             _ Hxy Hd).
Defined.

(** ** The construction of a [SINDyCV] *)

(** What the parent's [__init__] is given for the keywords [kw] of the
    call: the six parameters in the order of the signature, each with the
    value of its keyword or else its default. *)
Definition configuration (kw : dict) : dict :=
  (λ p, (p, default (dict_item p SINDyCV.init_defaults) (dict_get p kw)))
    <$> SINDyCV.init_params.

Lemma inb_app_r name (l1 l2 : list string) :
  inb name l2 = true → inb name (l1 ++ l2) = true.
Proof.
  unfold inb. rewrite existsb_app. intros ->. apply orb_true_r.
Qed.

(** Every parameter of [__init__] has a default, so that the binding of
    a call never misses one. *)
Lemma init_all_bound (named : dict) :
  forallb (λ p, inb p ("self"%string
                       :: (named ++ SINDyCV.init_defaults).*1))
          ("self"%string :: SINDyCV.init_params)
  = true.
Proof.
  apply forallb_forall. intros p Hp.
  destruct Hp as [<-|Hp]; [reflexivity|].
  unfold inb. cbn [existsb]. apply orb_true_iff. right.
  rewrite fmap_app. apply inb_app_r.
  repeat (destruct Hp as [<-|Hp]; [reflexivity|]). destruct Hp.
Qed.

(** What [__init__] hands on for a parameter: the keyword of the call
    when there is one, the default otherwise. *)
Lemma init_value name (kw : dict) :
  is_Some (dict_get name SINDyCV.init_defaults) →
  default PyNone (dict_get name (kw ++ SINDyCV.init_defaults))
  = default (dict_item name SINDyCV.init_defaults) (dict_get name kw).
Proof.
  intros [dflt Hd]. unfold dict_item. rewrite dict_get_app, Hd.
  by destruct (dict_get name kw).
Qed.

(** Keywords that all name parameters hold no other name. *)
Lemma named_apart (params : list string) name (kw : dict) :
  inb name params = false →
  Forall (λ kv : string * pyval, inb kv.1 params = true) kw →
  dict_get name kw = None.
Proof.
  intros Hname. induction 1 as [|[k v] kw Hk _ IH]; [done|].
  cbn [dict_get]. destruct (String.eqb k name) eqn:Hkn; [|exact IH].
  apply String.eqb_eq in Hkn. subst k. cbn [fst] in Hk. congruence.
Qed.

(** [SINDyCV(...)] with keywords [kw] that name parameters: one instance is
    made, the parent's [__init__] is called once, with all six parameters
    by keyword, the caller's values over the defaults, and the instance is
    returned. *)
Theorem new_configures_parent (kw : dict) :
  Forall (λ kv : string * pyval, inb kv.1 SINDyCV.init_params = true) kw →
  SINDyCV.new [] kw
  = (let* self := lib (New SINDyCV.name) in
     let* _ := call (Super SINDyCV.name self "__init__") []
                    (configuration kw) in
     Ret self).
Proof.
  intros Hnamed.
  pose proof (named_apart SINDyCV.init_params "self" kw eq_refl Hnamed)
    as Hself.
  assert (keyword_error ("self"%string :: SINDyCV.init_params)
                        ["self"%string] false kw = None) as Hkw.
  { apply keyword_error_none; [by repeat constructor|]. right.
    eapply Forall_impl; [exact Hnamed|]. intros kv Hk.
    unfold inb in *. cbn [existsb]. rewrite Hk. apply orb_true_r. }
  unfold SINDyCV.new, bind_args.
  change (zip ("self"%string :: SINDyCV.init_params) [?v])
    with [("self"%string, v)].
  change ([("self"%string, ?v)].*1) with ["self"%string].
  rewrite Hkw.
  change (length ("self"%string :: SINDyCV.init_params) <? length [?v])
    with false.
  change (([("self"%string, ?v)] ++ ?named).*1)
    with ("self"%string :: named.*1).
  rewrite init_all_bound.
  cbn [lift bind fst snd].
  change (dict_item "self" ([("self"%string, ?v)] ++ ?named)) with v.
  repeat change (dict_item ?p ([("self"%string, ?v)] ++ ?named))
    with (default PyNone (dict_get p named)).
  rewrite (filter_after_self (λ b, b) _ _ Hself), (filter_all _ _ Hnamed).
  rewrite !init_value by (by eexists).
  reflexivity.
Qed.

Lemma new_configures_parent_witness :
  Forall (λ kv : string * pyval, inb kv.1 SINDyCV.init_params = true)
         [("t_default", PyFloat 0.002%float)] ∧
  dict_get "t_default" (configuration [("t_default", PyFloat 0.002%float)])
  = Some (PyFloat 0.002%float) ∧
  SINDyCV.new [] [("t_default", PyFloat 0.002%float)]
  = (let* self := lib (New SINDyCV.name) in
     let* _ := call (Super SINDyCV.name self "__init__") []
                    (configuration [("t_default", PyFloat 0.002%float)]) in
     Ret self).
Proof.
  assert (Forall (λ kv : string * pyval,
                    inb kv.1 SINDyCV.init_params = true)
                 [("t_default", PyFloat 0.002%float)]) as Hkw
    by (repeat constructor).
  split; [exact Hkw|]. split; [reflexivity|].
  exact (new_configures_parent _ Hkw).
Defined.

(** A keyword that the parameters after [self] do not name is an error of
    the binding of [__init__]: [self] is bound by position already, any
    other name is unexpected. *)
Lemma keyword_error_unknown (params positional : list string) (kw : dict) :
  inb "self" positional = true →
  Exists (λ kv : string * pyval, inb kv.1 params = false) kw →
  is_Some (keyword_error ("self"%string :: params) positional false kw).
Proof.
  intros Hself. induction 1 as [[k v] kw Hk|[k v] kw _ IH];
    cbn [keyword_error].
  - cbn in Hk. unfold inb at 1. cbn [existsb]. fold (inb k params).
    rewrite Hk, orb_false_r.
    destruct (String.eqb k "self") eqn:Hks; [|by eexists].
    apply String.eqb_eq in Hks. subst k. rewrite Hself. by eexists.
  - destruct (inb k ("self"%string :: params));
      [destruct (inb k positional)|]; first [ exact IH | by eexists ].
Qed.

(** [SINDyCV(...)] with more than six positional arguments, or with a
    keyword that names no parameter, is a [TypeError] raised by [__init__]:
    the instance has been made, the parent's [__init__] is not called. *)
Theorem new_rejects_unknown (args : list pyval) (kw : dict) :
  length SINDyCV.init_params < length args
  ∨ Exists (λ kv : string * pyval, inb kv.1 SINDyCV.init_params = false) kw →
  ∃ e, exn_class e = "TypeError"%string
       ∧ SINDyCV.new args kw = (let* _ := lib (New SINDyCV.name) in Throw e).
Proof.
  intros Hbad. unfold SINDyCV.new, bind_args.
  change (zip ("self"%string :: SINDyCV.init_params) (?v :: args))
    with (("self"%string, v) :: zip SINDyCV.init_params args).
  change ((("self"%string, ?v) :: zip SINDyCV.init_params args).*1)
    with ("self"%string :: (zip SINDyCV.init_params args).*1).
  change (length ("self"%string :: SINDyCV.init_params)
          <? length (?v :: args))
    with (length SINDyCV.init_params <? length args).
  destruct (keyword_error ("self"%string :: SINDyCV.init_params)
              ("self"%string :: (zip SINDyCV.init_params args).*1) false kw)
    as [e|] eqn:Hkw.
  - exists e. split; [by eapply keyword_error_type_error|]. reflexivity.
  - destruct Hbad as [Hmany | Hunknown].
    + replace (length SINDyCV.init_params <? length args) with true
        by (symmetry; apply Nat.ltb_lt; lia).
      eexists. split; [|reflexivity]. reflexivity.
    + exfalso.
      destruct (keyword_error_unknown SINDyCV.init_params
                  ("self"%string :: (zip SINDyCV.init_params args).*1) kw
                  eq_refl Hunknown) as [e He].
      congruence.
Qed.

Lemma new_rejects_unknown_witness :
  ∃ e, exn_class e = "TypeError"%string
       ∧ SINDyCV.new [] [("dt", PyFloat 0.002%float)]
         = (let* _ := lib (New SINDyCV.name) in Throw e).
Proof.
  apply (new_rejects_unknown [] [("dt", PyFloat 0.002%float)]).
  right. apply Exists_cons_hd. reflexivity.
Defined.

End Binding.

(* ===================================================================== *)
(** * The transposition [.y.T] *)
(* ===================================================================== *)

Module Transposition.

(** [sol.y.T]: entry [(j, i)] of the transpose is entry [(i, j)] of the
    array, and beyond the bounds of the one is beyond the bounds of the
    other: row [j] of [x_train] is the state at the [j]th timestamp. *)
Theorem transpose_swaps_indices a i j :
  well_shaped a → item (transpose a) j i = item a i j.
Proof.
  destruct a as [v|v|n m rows]; [done..|]. intros [_ Hrows].
  cbn [transpose item]. by apply Trajectories.columns_item.
Qed.

Lemma transpose_swaps_indices_witness :
  well_shaped (Mat 2 3 [[1; 2; 3]; [4; 5; 6]]%float) ∧
  item (transpose (Mat 2 3 [[1; 2; 3]; [4; 5; 6]]%float)) 2 1 = Some 6%float ∧
  item (transpose (Mat 2 3 [[1; 2; 3]; [4; 5; 6]]%float)) 2 1
  = item (Mat 2 3 [[1; 2; 3]; [4; 5; 6]]%float) 1 2.
Proof.
  assert (well_shaped (Mat 2 3 [[1; 2; 3]; [4; 5; 6]]%float)) as Hwf
    by (split; [reflexivity | repeat constructor]).
  split; [exact Hwf|]. split; [reflexivity|].
  exact (transpose_swaps_indices _ 1 2 Hwf).
Defined.

Lemma transpose_well_shaped a : well_shaped a → well_shaped (transpose a).
Proof.
  destruct a as [v|v|n m rows]; [done..|]. intros [Hn Hrows].
  destruct (Trajectories.columns_shape n m rows Hn Hrows) as [Hlen Hcols].
  by split.
Qed.

(** Transposing twice gives the array back: [x_train.T] is [sol.y]. *)
Theorem transpose_involutive a :
  well_shaped a → transpose (transpose a) = a.
Proof.
  intros Hwf. pose proof (transpose_well_shaped a Hwf) as Hwf'.
  pose proof (transpose_well_shaped _ Hwf') as Hwf''.
  destruct a as [v|v|n m rows]; [done..|].
  cbn [transpose] in *. f_equal.
  destruct Hwf as [Hn Hrows]. destruct Hwf'' as [Hn'' Hrows''].
  apply list_eq. intros i.
  destruct (rows !! i) as [r|] eqn:Hr.
  - assert (i < n) as Hi by (apply lookup_lt_Some in Hr; lia).
    destruct (columns n (columns m rows) !! i) as [r'|] eqn:Hr'.
    2:{ apply lookup_ge_None in Hr'. lia. }
    f_equal. apply list_eq. intros j.
    destruct (Trajectories.columns_shape n m rows Hn Hrows) as [_ Hcols].
    pose proof (Trajectories.columns_item n (columns m rows) j i Hcols)
      as H1.
    pose proof (Trajectories.columns_item m rows i j Hrows) as H2.
    rewrite Hr' in H1. rewrite Hr in H2. cbn in H1, H2.
    by rewrite H1, H2.
  - apply lookup_ge_None in Hr. apply lookup_ge_None. lia.
Qed.

Lemma transpose_involutive_witness :
  well_shaped (Mat 2 3 [[1; 2; 3]; [4; 5; 6]]%float) ∧
  transpose (transpose (Mat 2 3 [[1; 2; 3]; [4; 5; 6]]%float))
  = Mat 2 3 [[1; 2; 3]; [4; 5; 6]]%float.
Proof.
  assert (well_shaped (Mat 2 3 [[1; 2; 3]; [4; 5; 6]]%float)) as Hwf
    by (split; [reflexivity | repeat constructor]).
  split; [exact Hwf|]. exact (transpose_involutive _ Hwf).
Defined.

End Transposition.

(* ===================================================================== *)
(** * Indexing in general *)
(* ===================================================================== *)

Module Indexing.
Import Numeric.

(** [a[i]] is defined exactly for [-len(a) <= i < len(a)]: outside of
    this range Python raises an [IndexError], inside it never does. *)
Theorem getitem_defined_in_range {A} (a : list A) (i : Z) :
  is_Some (getitem a i) ↔ (- Z.of_nat (length a) ≤ i < Z.of_nat (length a))%Z.
Proof.
  unfold getitem.
  destruct (Z.leb_spec 0 i) as [Hi|Hi].
  - rewrite lookup_lt_is_Some. lia.
  - destruct (Z.leb_spec (- Z.of_nat (length a)) i) as [Hlo|Hlo].
    + rewrite lookup_lt_is_Some. lia.
    + split; [by intros [? ?]|lia].
Qed.

(** [a[0]] and [a[-1]] are the first and the last entry. *)
Lemma getitem_ends {A} (a : list A) :
  getitem a 0 = head a ∧ getitem a (-1) = last a.
Proof.
  split.
  - unfold getitem. cbn. by destruct a.
  - unfold getitem. cbn [Z.leb Z.compare].
    destruct a as [|x a]; [done|].
    replace (- Z.of_nat (length (x :: a)) <=? -1)%Z with true
      by (symmetry; apply Z.leb_le; cbn [length]; lia).
    rewrite last_lookup. f_equal. cbn [length]. lia.
Qed.

End Indexing.

(* ===================================================================== *)
(** * What [solve_ivp] is given *)
(* ===================================================================== *)

Module Integration.
Import Numeric.

(** Every entry of [t] lies in the span [[a, b]]. *)
Definition within_span (a b : float) (t : list float) : Prop :=
  Forall (λ x, PrimFloat.leb a x = true ∧ PrimFloat.leb x b = true) t.

Definition within_span_ok (a b : float) (t : list float) : bool :=
  forallb (λ x, PrimFloat.leb a x && PrimFloat.leb x b) t.

Lemma within_span_spec a b t :
  within_span_ok a b t = true → within_span a b t.
Proof.
  unfold within_span_ok, within_span.
  induction t as [|x t IH]; cbn; intros H; [constructor|].
  apply andb_prop in H as [Hx Ht]. apply andb_prop in Hx as [? ?].
  constructor; [done|by apply IH].
Qed.

(** A call of [solve_ivp] as cell 2 writes it, for the keywords [ik] that
    cell 1 left: the system is [lorenz], the span runs from the first to
    the last entry of [t_eval], the entries of [t_eval] increase strictly
    and lie in the span, and the keywords are [t_eval] followed by
    [ik]. *)
Definition admissible (ik : dict) (op : libop) : Prop :=
  ∀ args kw,
    op = Call (Fn "solve_ivp") args kw →
    ∃ a b y0 t,
      args = [PyName "lorenz"; PyTuple [PyFloat a; PyFloat b]; y0] ∧
      kw = ("t_eval", PyArray (Vec t)) :: ik ∧
      head t = Some a ∧ last t = Some b ∧
      strictly_increasing t ∧ within_span a b t.

Lemma train_admissible :
  head t_train = Some 0%float ∧
  last t_train = Some 9.9979999999999993%float ∧
  strictly_increasing t_train ∧
  within_span 0%float 9.9979999999999993%float t_train.
Proof.
  split; [vm_refl|]. split; [vm_refl|]. split.
  - intros i a b.
    apply (Grids.adjacent_spec _ _ (proj1 TimeVectors.increasing_checked)).
  - apply within_span_spec. vm_refl.
Qed.

Lemma test_admissible :
  head t_test = Some 0%float ∧
  last t_test = Some 14.998000000000001%float ∧
  strictly_increasing t_test ∧
  within_span 0%float 14.998000000000001%float t_test.
Proof.
  split; [vm_refl|]. split; [vm_refl|]. split.
  - intros i a b.
    apply (Grids.adjacent_spec _ _ (proj2 TimeVectors.increasing_checked)).
  - apply within_span_spec. vm_refl.
Qed.

(** Cell 2 for any keywords of cell 1 that do not hold [t_eval]. *)
Lemma generate_data_any_keywords x0 with_x_test (ik : dict) :
  dict_get "t_eval" ik = None →
  Notebook.generate_data_with x0 with_x_test ik =
  let* sol := call (Fn "solve_ivp")
                   [PyName "lorenz"; Calls.t_train_span; Calls.x0_train]
                   (("t_eval", PyArray (Vec t_train)) :: ik) in
  let* y := getattr sol "y" in
  let* x_train := attr_T y in
  if with_x_test then
    let* sol := call (Fn "solve_ivp")
                     [PyName "lorenz"; Calls.t_test_span; x0]
                     (("t_eval", PyArray (Vec t_test)) :: ik) in
    let* y := getattr sol "y" in
    let* x_test := attr_T y in
    Ret (Calls.data_of x0 x_train (Some x_test))
  else Ret (Calls.data_of x0 x_train None).
Proof.
  intros Hfresh. unfold Notebook.generate_data_with. cbv zeta.
  change 0.002%float with Numeric.dt.
  rewrite Grids.arange_train, Grids.arange_test.
  cbn [or_raise bind].
  destruct Calls.span_train as [-> ->]. destruct Calls.span_test as [-> ->].
  cbn [or_raise bind].
  rewrite !(Delegation.keywords_fresh [("t_eval", _)] ik)
    by (by repeat constructor).
  cbn [lift bind app].
  by destruct with_x_test.
Qed.

Lemma generate_data_admissible x0 with_x_test (ik : dict) c :
  dict_get "t_eval" ik = None →
  inv (λ _ _, admissible ik) c []
      (Notebook.generate_data_with x0 with_x_test ik).
Proof.
  intros Hfresh. rewrite (generate_data_any_keywords _ _ _ Hfresh).
  destruct train_admissible as (? & ? & ? & ?).
  destruct test_admissible as (? & ? & ? & ?).
  cbn [bind call lib getattr].
  walk_inv ltac:(
    intros args kw Hop;
    first [ discriminate Hop
          | injection Hop as <- <-;
            eexists _, _, _, _;
            split; [reflexivity|]; split; [reflexivity|];
            repeat split; assumption ]).
Qed.

(** Whatever keywords cell 1 leaves, as long as [t_eval] is not among
    them, each call of [solve_ivp] integrates [lorenz] over the span from
    the first to the last entry of its [t_eval], with [t_eval] strictly
    increasing and inside the span, and is given the keywords of cell 1
    unchanged after [t_eval]. *)
Theorem solve_ivp_calls_admissible {W} (h : handler W) (w : W) c x0
    with_x_test (ik : dict) i e args kw :
  dict_get "t_eval" ik = None →
  trace (run h (Notebook.generate_data_with x0 with_x_test ik) c w) !! i
  = Some e →
  e_op e = Call (Fn "solve_ivp") args kw →
  ∃ a b y0 t,
    args = [PyName "lorenz"; PyTuple [PyFloat a; PyFloat b]; y0] ∧
    kw = ("t_eval", PyArray (Vec t)) :: ik ∧
    head t = Some a ∧ last t = Some b ∧
    strictly_increasing t ∧ within_span a b t.
Proof.
  intros Hfresh Hi Hop.
  pose proof (inv_sound _ _ _ _
    (generate_data_admissible x0 with_x_test ik c Hfresh)
    (obeys_nil _) h w i e Hi) as Hq.
  exact (Hq args kw Hop).
Qed.

Lemma solve_ivp_calls_admissible_witness :
  dict_get "t_eval" Calls.integrator_keywords = None ∧
  ∃ a b y0 t,
    [PyName "lorenz"; Calls.t_train_span; Calls.x0_train]
    = [PyName "lorenz"; PyTuple [PyFloat a; PyFloat b]; y0] ∧
    Calls.train_keywords
    = ("t_eval", PyArray (Vec t)) :: Calls.integrator_keywords ∧
    head t = Some a ∧ last t = Some b ∧
    strictly_increasing t ∧ within_span a b t.
Proof.
  split; [reflexivity|].
  apply (solve_ivp_calls_admissible Toy.library 0 2 Notebook.x0_test_array
           true Calls.integrator_keywords 0
           (Entry 2 Calls.solve_train (Ok (Toy.zeros 3 5000)))).
  - reflexivity.
  - vm_refl.
  - reflexivity.
Defined.

(** When the keywords of cell 1 hold [t_eval], the call expression of
    line 77 repeats a keyword: Python raises a [TypeError] while it builds
    the arguments, so that [solve_ivp] is not called, and nothing after
    it.  By then [np.arange] of line 74 has returned [t_train] and the two
    index reads of line 75 have been made: the model computes them itself,
    and the trace, which records what is asked of the library, is
    empty. *)
Theorem t_eval_given_twice {W} (h : handler W) (w : W) c x0 with_x_test
    (ik : dict) :
  is_Some (dict_get "t_eval" ik) →
  np_arange 0%float 10%float dt = Some t_train ∧
  getitem t_train 0 = head t_train ∧ getitem t_train (-1) = last t_train ∧
  ∃ e, exn_class e = "TypeError"%string ∧
       run h (Notebook.generate_data_with x0 with_x_test ik) c w
       = Result [] (Raise e) c w.
Proof.
  intros Hik. split; [exact Grids.arange_train|].
  split; [apply Indexing.getitem_ends|].
  split; [apply Indexing.getitem_ends|].
  unfold Notebook.generate_data_with. cbv zeta.
  change 0.002%float with Numeric.dt.
  rewrite Grids.arange_train.
  cbn [or_raise bind].
  destruct Calls.span_train as [-> ->].
  cbn [or_raise bind].
  destruct (Delegation.keywords_repeated "t_eval"
              (PyArray (Vec t_train)) ik Hik) as (x & -> & Hx).
  cbn [lift bind run]. by exists x.
Qed.

Lemma t_eval_given_twice_witness :
  is_Some (dict_get "t_eval" [("t_eval", PyNone)]) ∧
  np_arange 0%float 10%float dt = Some t_train ∧
  getitem t_train 0 = head t_train ∧ getitem t_train (-1) = last t_train ∧
  ∃ e, exn_class e = "TypeError"%string ∧
       run Toy.library
           (Notebook.generate_data_with Notebook.x0_test_array true
              [("t_eval", PyNone)]) 2 0
       = Result [] (Raise e) 2 0.
Proof.
  split; [by eexists|].
  apply (t_eval_given_twice Toy.library 0 2 Notebook.x0_test_array true
           [("t_eval", PyNone)]).
  by eexists.
Defined.

End Integration.

(* ===================================================================== *)
(** * What the searches and the fits are given *)
(* ===================================================================== *)

Module Searches.
Import Notebook.

(** The [t_default] a completed [ps.SINDy(...)] was given. *)
Definition timestep_of (e : entry) : option pyval :=
  match e_op e, e_res e with
  | Call (Fn name) _ kw, Ok _ =>
      if String.eqb name "ps.SINDy" then dict_get "t_default" kw else None
  | _, _ => None
  end.

(** What a [fit] finds before it: it is given [x_train] and no time
    vector; either it is given nothing else, and a [ps.SINDy] model of its
    cell was constructed with [t_default = dt], or it is the fit of cell
    6, given the derivatives as [y]. *)
Definition fit_has_timestep (d : data) (hist : list entry) (c : nat)
    (op : libop) : Prop :=
  ∀ obj args kw,
    op = Call (Method obj "fit") args kw →
    args = [x_train d] ∧ dict_get "t" kw = None ∧
    ((kw = [] ∧
      Exists (λ e, e_cell e = c ∧ timestep_of e = Some (PyFloat (dt d))) hist)
     ∨ (c = 6 ∧ ∃ x_dot, kw = [("y", x_dot)])).

Ltac check_fit_has_timestep :=
  intros obj args kw Hop;
  first
    [ discriminate Hop
    | injection Hop as <- <- <-;
      split; [reflexivity|]; split; [reflexivity|];
      first
        [ left; split; [reflexivity|];
          repeat first [ apply Exists_cons_hd; split; reflexivity
                       | apply Exists_cons_tl ]
        | right; split; [reflexivity|]; eexists; reflexivity ] ].

(** A run against the example library, on data whose [x_train] is the
    object [PyObj 0]. *)
Definition example : data :=
  Calls.data_of x0_test_array (PyObj 0) None.

Definition example_run : list entry :=
  trace (run Toy.library (experiments example) 0 1).

(** The fit of cell 7 and the search of cell 6 in that run. *)
Definition example_fit : entry :=
  Entry 7 (Call (Method (PyObj 25) "fit") [PyObj 0] []) (Ok PyNone).

Definition example_grid : dict :=
  [("optimizer__threshold",
    PyList [PyFloat 0.002%float; PyFloat 0.01%float; PyFloat 0.1%float]);
   ("optimizer__alpha",
    PyList [PyFloat 0.01%float; PyFloat 0.05%float; PyFloat 0.1%float]);
   ("feature_library__degree", PyList [PyInt 1; PyInt 2; PyInt 3])].

Definition example_search : entry :=
  Entry 6 (Call (Fn "GridSearchCV") [PyObj 16; PyDict example_grid]
                [("cv", PyObj 19)])
        (Ok (PyObj 20)).

Lemma example_run_fit : example_run !! 36 = Some example_fit.
Proof. vm_refl. Qed.

Lemma example_run_search : example_run !! 27 = Some example_search.
Proof. vm_refl. Qed.

Lemma experiments_fit_has_timestep d :
  inv (fit_has_timestep d) 0 [] (experiments d).
Proof.
  unfold experiments, cv_time_series_split, cv_sindy_derivative,
    define_SINDyCV, cv_shuffle_split, elastic_net,
    orthogonal_matching_pursuit.
  rewrite Calls.new_default_tree.
  cbn [bind import call lib getattr].
  walk_inv check_fit_has_timestep.
Qed.

(** Every [fit] of the notebook, of a search or of a model, is given the
    training trajectory and no time vector.  A fit that is given nothing
    else differentiates by itself, and runs in a cell whose [ps.SINDy]
    model was constructed with [t_default = dt]; the one fit that is given
    more is the fit of cell 6, which is given the derivatives as [y]. *)
Theorem fits_rely_on_default_timestep {W} (h : handler W) (w : W) d c0
    i e obj args kw :
  trace (run h (experiments d) c0 w) !! i = Some e →
  e_op e = Call (Method obj "fit") args kw →
  args = [x_train d] ∧ dict_get "t" kw = None ∧
  ((kw = [] ∧
    ∃ j ej, j < i ∧ trace (run h (experiments d) c0 w) !! j = Some ej ∧
            e_cell ej = e_cell e ∧
            timestep_of ej = Some (PyFloat (dt d)))
   ∨ (e_cell e = 6 ∧ ∃ x_dot, kw = [("y", x_dot)])).
Proof.
  intros Hi Hop.
  assert (inv (fit_has_timestep d) c0 [] (experiments d)) as Hinv.
  { pose proof (experiments_fit_has_timestep d) as H0.
    unfold experiments in *. cbn [bind] in *.
    inversion H0; subst. by constructor. }
  pose proof (inv_sound _ _ _ _ Hinv (obeys_nil _) h w i e Hi) as Hq.
  cbn [app] in Hq.
  destruct (Hq obj args kw Hop) as (Hargs & Ht & [[Hkw Hex] | Hsix]).
  - split; [done|]. split; [done|]. left. split; [done|].
    destruct (Order.exists_before _ _ Hex) as (j & ej & ? & ? & ? & ?).
    by exists j, ej.
  - split; [done|]. split; [done|]. by right.
Qed.

Lemma fits_rely_on_default_timestep_witness :
  example_run !! 36 = Some example_fit ∧
  [PyObj 0] = [x_train example] ∧ dict_get "t" [] = None ∧
  ((@nil (string * pyval) = [] ∧
    ∃ j ej, j < 36 ∧ example_run !! j = Some ej ∧
            e_cell ej = e_cell example_fit ∧
            timestep_of ej = Some (PyFloat (dt example)))
   ∨ (e_cell example_fit = 6 ∧
      ∃ x_dot : pyval, @nil (string * pyval) = [("y", x_dot)])).
Proof.
  split; [exact example_run_fit|].
  apply (fits_rely_on_default_timestep Toy.library 1 example 0 36
           example_fit (PyObj 25) [PyObj 0] []).
  - exact example_run_fit.
  - reflexivity.
Defined.

(** ** The splitter of each search *)

(** [e] is a completed call of cell [c] that returned [v] and whose
    operation satisfies [P]. *)
Definition made_by (P : libop → Prop) (c : nat) (v : pyval) (e : entry)
  : Prop :=
  e_cell e = c ∧ e_res e = Ok v ∧ P (e_op e).

Definition time_series_split (op : libop) : Prop :=
  op = Call (Fn "TimeSeriesSplit") [] [("n_splits", PyInt 5)].

Definition sindy_model (op : libop) : Prop :=
  ∃ kw, op = Call (Fn "ps.SINDy") [] kw.

Definition shuffle_split (op : libop) : Prop :=
  ∃ kw, op = Call (Fn "ShuffleSplit") [] kw.

Definition sindycv_model (op : libop) : Prop := op = New SINDyCV.name.

Definition differentiated (d : data) (model : pyval) (op : libop) : Prop :=
  ∃ kw, op = Call (Method model "differentiate") [x_train d] kw.

(** What a [GridSearchCV(model, param_grid, cv=cv)] finds before it, in
    its own cell: [cv] is a [TimeSeriesSplit(n_splits=5)] and [model] a
    [ps.SINDy]; or [cv] is a [ShuffleSplit], [model] is a [SINDyCV] and
    has differentiated [x_train] already. *)
Definition splitter_fits_model (d : data) (hist : list entry) (c : nat)
    (op : libop) : Prop :=
  ∀ args kw,
    op = Call (Fn "GridSearchCV") args kw →
    ∃ model grid cv,
      args = [model; grid] ∧ kw = [("cv", cv)] ∧
      ((Exists (made_by time_series_split c cv) hist ∧
        Exists (made_by sindy_model c model) hist)
       ∨ (Exists (made_by shuffle_split c cv) hist ∧
          Exists (made_by sindycv_model c model) hist ∧
          ∃ x_dot, Exists (made_by (differentiated d model) c x_dot) hist)).

Ltac find_entry :=
  solve [ repeat first
    [ apply Exists_cons_hd;
      split; [reflexivity|]; split; [reflexivity|];
      first [reflexivity | eexists; reflexivity]
    | apply Exists_cons_tl ] ].

Ltac check_splitter_fits_model :=
  intros args kw Hop;
  first
    [ discriminate Hop
    | injection Hop as <- <-;
      eexists _, _, _; split; [reflexivity|]; split; [reflexivity|];
      first
        [ left; split; find_entry
        | right; split; [find_entry|]; split; [find_entry|];
          eexists; find_entry ] ].

Lemma experiments_splitter_fits_model d :
  inv (splitter_fits_model d) 0 [] (experiments d).
Proof.
  unfold experiments, cv_time_series_split, cv_sindy_derivative,
    define_SINDyCV, cv_shuffle_split, elastic_net,
    orthogonal_matching_pursuit.
  rewrite Calls.new_default_tree.
  cbn [bind import call lib getattr].
  walk_inv check_splitter_fits_model.
Qed.

(** Every grid search is constructed from a model and a splitter made
    earlier in its own cell.  A search over a [ps.SINDy] model splits with
    [TimeSeriesSplit(n_splits=5)], which keeps the samples in their order;
    the shuffling splitter [ShuffleSplit] is only paired with a [SINDyCV]
    model, and only after that model has differentiated [x_train]. *)
Theorem splitter_matches_model {W} (h : handler W) (w : W) d c0
    i e args kw :
  trace (run h (experiments d) c0 w) !! i = Some e →
  e_op e = Call (Fn "GridSearchCV") args kw →
  let before := take i (trace (run h (experiments d) c0 w)) in
  ∃ model grid cv,
    args = [model; grid] ∧ kw = [("cv", cv)] ∧
    ((Exists (made_by time_series_split (e_cell e) cv) before ∧
      Exists (made_by sindy_model (e_cell e) model) before)
     ∨ (Exists (made_by shuffle_split (e_cell e) cv) before ∧
        Exists (made_by sindycv_model (e_cell e) model) before ∧
        ∃ x_dot,
          Exists (made_by (differentiated d model) (e_cell e) x_dot)
                 before)).
Proof.
  intros Hi Hop.
  assert (inv (splitter_fits_model d) c0 [] (experiments d)) as Hinv.
  { pose proof (experiments_splitter_fits_model d) as H0.
    unfold experiments in *. cbn [bind] in *.
    inversion H0; subst. by constructor. }
  pose proof (inv_sound _ _ _ _ Hinv (obeys_nil _) h w i e Hi) as Hq.
  cbn [app] in Hq. exact (Hq args kw Hop).
Qed.

Lemma splitter_matches_model_witness :
  example_run !! 27 = Some example_search ∧
  ∃ model grid cv,
    [PyObj 16; PyDict example_grid] = [model; grid] ∧
    [("cv", PyObj 19)] = [("cv", cv)] ∧
    ((Exists (made_by time_series_split 6 cv) (take 27 example_run) ∧
      Exists (made_by sindy_model 6 model) (take 27 example_run))
     ∨ (Exists (made_by shuffle_split 6 cv) (take 27 example_run) ∧
        Exists (made_by sindycv_model 6 model) (take 27 example_run) ∧
        ∃ x_dot,
          Exists (made_by (differentiated example model) 6 x_dot)
                 (take 27 example_run))).
Proof.
  split; [exact example_run_search|].
  apply (splitter_matches_model Toy.library 1 example 0 27 example_search
           [PyObj 16; PyDict example_grid] [("cv", PyObj 19)]).
  - exact example_run_search.
  - reflexivity.
Defined.

(** ** The parameters searched *)

(** The parameter a key of a grid addresses: the text before the first
    [__] ([optimizer] for [optimizer__threshold]). *)
Fixpoint parameter_of (key : string) : string :=
  match key with
  | EmptyString => EmptyString
  | String a rest =>
      if String.prefix "__" key then EmptyString
      else String a (parameter_of rest)
  end.

Definition searches_declared (c : nat) (op : libop) : Prop :=
  ∀ model grid kw,
    op = Call (Fn "GridSearchCV") [model; PyDict grid] kw →
    NoDup grid.*1 ∧
    Forall (λ key, inb (parameter_of key) SINDyCV.init_params = true)
           grid.*1 ∧
    (c = 6 →
     Forall (λ key, parameter_of key ≠ "differentiation_method"%string)
            grid.*1).

Ltac check_searches_declared :=
  intros model grid kw Hop;
  first
    [ discriminate Hop
    | injection Hop as <- <- <-;
      split; [apply (bool_decide_unpack _); by vm_compute|];
      split; [repeat (apply List.Forall_cons; [reflexivity|]);
              apply List.Forall_nil|];
      intros Hc;
      first [ discriminate Hc
            | repeat (apply List.Forall_cons; [cbv; discriminate|]);
              apply List.Forall_nil ] ].

Lemma experiments_searches_declared d :
  inv (λ _, searches_declared) 0 [] (experiments d).
Proof.
  unfold experiments, cv_time_series_split, cv_sindy_derivative,
    define_SINDyCV, cv_shuffle_split, elastic_net,
    orthogonal_matching_pursuit.
  rewrite Calls.new_default_tree.
  cbn [bind import call lib getattr].
  walk_inv check_searches_declared.
Qed.

(** No grid names a parameter twice, and every key of every grid
    addresses, by its text before [__], a parameter that the [__init__]
    of [SINDyCV] declares; the grid of cell 6, whose derivatives are
    computed before the search, does not search the differentiation
    method. *)
Theorem grids_search_declared_parameters {W} (h : handler W) (w : W) d c0
    i e model grid kw :
  trace (run h (experiments d) c0 w) !! i = Some e →
  e_op e = Call (Fn "GridSearchCV") [model; PyDict grid] kw →
  NoDup grid.*1 ∧
  Forall (λ key, inb (parameter_of key) SINDyCV.init_params = true)
         grid.*1 ∧
  (e_cell e = 6 →
   Forall (λ key, parameter_of key ≠ "differentiation_method"%string)
          grid.*1).
Proof.
  intros Hi Hop.
  assert (inv (λ _, searches_declared) c0 [] (experiments d)) as Hinv.
  { pose proof (experiments_searches_declared d) as H0.
    unfold experiments in *. cbn [bind] in *.
    inversion H0; subst. by constructor. }
  pose proof (inv_sound _ _ _ _ Hinv (obeys_nil _) h w i e Hi) as Hq.
  exact (Hq model grid kw Hop).
Qed.

Lemma grids_search_declared_parameters_witness :
  example_run !! 27 = Some example_search ∧
  NoDup example_grid.*1 ∧
  Forall (λ key, inb (parameter_of key) SINDyCV.init_params = true)
         example_grid.*1 ∧
  (e_cell example_search = 6 →
   Forall (λ key, parameter_of key ≠ "differentiation_method"%string)
          example_grid.*1).
Proof.
  split; [exact example_run_search|].
  apply (grids_search_declared_parameters Toy.library 1 example 0 27
           example_search (PyObj 16) example_grid [("cv", PyObj 19)]).
  - exact example_run_search.
  - reflexivity.
Defined.

End Searches.
